(** * wordpress-mcp: the tool dispatcher and the WordPress REST adapter

    A shallow embedding of [src/index.ts] (the [CallToolRequestSchema]
    handler) and of the [WordPressClient] class (the variant that carries
    the page and media methods; the methods it shares with
    [src/wordpress.ts] are the same text).

    JavaScript values are an inductive type, [undefined] included.  Numbers
    are integers ([Z]) plus [NaN]; fractions and infinities are left out.
    An [async] method is a computation over the list of outbound requests
    issued so far, returning either a thrown value or a result.  The remote
    site is a function from the requests already issued and the request at
    hand to a response or a rejection.  Writes of the logger go to stderr
    and are not part of the state; a property read made only to fill a log
    record repeats, or is at once followed by, the same read in the method
    body, so it throws nothing the body does not throw. *)

From Stdlib Require Import ZArith List String Ascii Bool Lia DecimalString.
Import ListNotations.
Open Scope string_scope.

Local Set Warnings "-register-all".

(** ** JavaScript values *)

Inductive value : Type :=
| VUndef
| VNull
| VBool (b : bool)
| VNum (n : Z)
| VNaN
| VStr (s : string)
| VArr (items : list value)
| VObj (fields : list (string * value)).

(** A thrown value: an [Error] object with its message, or anything else. *)
Inductive thrown : Type :=
| JsError (message : string)
| Thrown (v : value).

Definition dquote : string := String (ascii_of_nat 34) EmptyString.

(** [String(n)] for an integer [n].  [VNum n] stands for the number [n]
    within the safe integers, [|n| <= 2^53], where a JavaScript number is
    that integer and prints as its decimal digits; larger numbers (rounded,
    and printed in exponent form from 1e21) are outside the model, as
    fractions are. *)
Definition Z_to_string (n : Z) : string := NilZero.string_of_int (Z.to_int n).

(** [String(v)]. *)
Fixpoint to_String (v : value) : string :=
  match v with
  | VUndef => "undefined"
  | VNull => "null"
  | VBool true => "true"
  | VBool false => "false"
  | VNum n => Z_to_string n
  | VNaN => "NaN"
  | VStr s => s
  | VArr items =>
      (fix join (l : list value) : string :=
         match l with
         | [] => EmptyString
         | x :: rest =>
             let sx := match x with
                       | VUndef | VNull => EmptyString
                       | _ => to_String x
                       end in
             match rest with
             | [] => sx
             | _ => sx ++ "," ++ join rest
             end
         end) items
  | VObj _ => "[object Object]"
  end.

(** [error instanceof Error ? error.message : String(error)] *)
Definition error_text (e : thrown) : string :=
  match e with
  | JsError m => m
  | Thrown v => to_String v
  end.

(** Truthiness, as tested by [if], [!], [||], [&&] and [?:]. *)
Definition truthy (v : value) : bool :=
  match v with
  | VUndef | VNull | VNaN => false
  | VBool b => b
  | VNum n => negb (n =? 0)%Z
  | VStr s => negb (s =? EmptyString)
  | VArr _ | VObj _ => true
  end.

(** [a || b] *)
Definition js_or (a b : value) : value := if truthy a then a else b.

Fixpoint assoc {A : Type} (k : string) (l : list (string * A)) : option A :=
  match l with
  | [] => None
  | (k', v) :: rest => if k' =? k then Some v else assoc k rest
  end.

(** Own-property lookup in an object; keys occur once in an object. *)
Definition field (k : string) (fs : list (string * value)) : value :=
  match assoc k fs with
  | Some v => v
  | None => VUndef
  end.

(** [v.k]: a [TypeError] on [undefined] and [null], the own property of an
    object, [undefined] on the other values.  Inherited properties are left
    out: the argument bag of a call is an object or [undefined], and on a
    response body that is a string or an array the keys read here are
    either absent or read after one whose absence already throws. *)
Definition get (v : value) (k : string) : thrown + value :=
  match v with
  | VUndef =>
      inl (JsError ("Cannot read properties of undefined (reading '" ++ k ++ "')"))
  | VNull =>
      inl (JsError ("Cannot read properties of null (reading '" ++ k ++ "')"))
  | VObj fs => inr (field k fs)
  | _ => inr VUndef
  end.

(** [...(x && { k: x })] inside an object literal. *)
Definition spread_if (k : string) (x : value) : list (string * value) :=
  if truthy x then [(k, x)] else [].

(** [...(x !== undefined && { k: x })] *)
Definition spread_defined (k : string) (x : value) : list (string * value) :=
  match x with
  | VUndef => []
  | _ => [(k, x)]
  end.

(** A parameter with a default: [p = d] in a parameter list. *)
Definition default_to (d p : value) : value :=
  match p with
  | VUndef => d
  | _ => p
  end.

(** ** Requests and responses *)

Inductive method : Type := GET | POST | DELETE.

Inductive body : Type :=
| NoBody
| JsonBody (v : value)
| BufferBase64 (data : string).   (* Buffer.from(data, "base64") *)

Record request : Type := mkRequest {
  rq_method : method;
  rq_url : string;
  rq_params : list (string * value);
  rq_body : body;
  rq_headers : list (string * string)
}.

Record response : Type := mkResponse {
  data : value;
  headers : list (string * string)
}.

(** [response.headers[k]] *)
Definition header (r : response) (k : string) : value :=
  match assoc k (headers r) with
  | Some s => VStr s
  | None => VUndef
  end.

(** ** Computations: the request log threaded through, exceptions as [inl] *)

Definition M (A : Type) : Type := list request -> (thrown + A) * list request.

Definition ret {A : Type} (a : A) : M A := fun log => (inr a, log).

Definition throw {A : Type} (e : thrown) : M A := fun log => (inl e, log).

Definition bind {A B : Type} (m : M A) (k : A -> M B) : M B :=
  fun log =>
    match m log with
    | (inr a, log') => k a log'
    | (inl e, log') => (inl e, log')
    end.

Notation "x <- m ;; k" := (bind m (fun x => k))
  (at level 61, m at next level, right associativity).

Definition lift {A : Type} (r : thrown + A) : M A := fun log => (r, log).

(** [try { m } catch (error) { h error }] *)
Definition try_catch {A : Type} (m : M A) (h : thrown -> M A) : M A :=
  fun log =>
    match m log with
    | (inl e, log') => h e log'
    | r => r
    end.

(** The [catch] clause of every adapter method:
    [throw new Error(`<prefix>${error instanceof Error ? error.message : String(error)}`)] *)
Definition rethrow {A : Type} (prefix : string) (m : M A) : M A :=
  try_catch m (fun e => throw (JsError (prefix ++ error_text e))).

Definition read (v : value) (k : string) : M value := lift (get v k).

Fixpoint mapM {A B : Type} (f : A -> M B) (l : list A) : M (list B) :=
  match l with
  | [] => ret []
  | x :: rest => y <- f x ;; ys <- mapM f rest ;; ret (y :: ys)
  end.

(** [v.map(f)] *)
Definition js_map (owner : string) (v : value) (f : value -> M value) : M value :=
  match v with
  | VArr items => ys <- mapM f items ;; ret (VArr ys)
  | VUndef | VNull => y <- read v "map" ;; ret y
  | _ => throw (JsError (owner ++ ".map is not a function"))
  end.

(** The requests a computation adds to the log. *)
Definition result_of {A : Type} (m : M A) (log : list request) : thrown + A :=
  fst (m log).

Definition log_after {A : Type} (m : M A) (log : list request) : list request :=
  snd (m log).

(** ** The adapter: [class WordPressClient] *)

Section Adapter.

(** Built-ins of the host language that the program calls and that are taken
    as given: [JSON.stringify(v, null, 2)] (on the values an adapter method
    returns: an object literal, or a response body, which the HTTP client
    never leaves [undefined]), the numeric reading of a string, and
    [Buffer.from] on something that is not a string. *)
Variable JSON_stringify : value -> string.
Variable StringToNumber : string -> option Z.
Variable Buffer_from_other : value -> thrown + body.

(** The remote site, as seen through the HTTP client: given the requests
    already issued and a request, a response, or the rejection (network
    fault, timeout, status outside 2xx). *)
Variable remote : list request -> request -> thrown + response.

Definition send (r : request) : M response :=
  fun log => (remote log r, (log ++ [r])%list).

(** [this.client.get(url, { params })] *)
Definition client_get (url : string) (params : list (string * value)) : M response :=
  send (mkRequest GET url params NoBody []).

(** [this.client.post(url, payload, { headers })] *)
Definition client_post (url : string) (payload : body)
    (hdrs : list (string * string)) : M response :=
  send (mkRequest POST url [] payload hdrs).

(** [this.client.delete(url, { params })] *)
Definition client_delete (url : string) (params : list (string * value)) : M response :=
  send (mkRequest DELETE url params NoBody []).

Definition ToNumber (v : value) : option Z :=
  match v with
  | VUndef | VNaN | VObj _ => None
  | VNull => Some 0%Z
  | VBool b => Some (if b then 1 else 0)%Z
  | VNum n => Some n
  | VStr s => StringToNumber s
  | VArr _ => StringToNumber (to_String v)
  end.

(** [Math.min(a, m)] with [m] a number literal. *)
Definition Math_min (a : value) (m : Z) : value :=
  match ToNumber a with
  | Some n => VNum (Z.min n m)
  | None => VNaN
  end.

(** The projection [{ id, title: title.rendered, link, status }] shared by
    update and publish. *)
Definition project_post (d : value) : M value :=
  id <- read d "id" ;;
  title <- read d "title" ;;
  rendered <- read title "rendered" ;;
  link <- read d "link" ;;
  status <- read d "status" ;;
  ret (VObj [("id", id); ("title", rendered); ("link", link); ("status", status)]).

Definition getPosts (params0 : value) : M value :=
  let params := default_to (VObj []) params0 in
  rethrow "Failed to fetch posts: " (
    per_page <- read params "per_page" ;;
    page <- read params "page" ;;
    status <- read params "status" ;;
    orderby <- read params "orderby" ;;
    order <- read params "order" ;;
    search <- read params "search" ;;
    let queryParams :=
      ([("per_page", Math_min (js_or per_page (VNum 10)) 100);
        ("page", js_or page (VNum 1));
        ("status", js_or status (VStr "publish"));
        ("orderby", js_or orderby (VStr "date"));
        ("order", js_or order (VStr "desc"))]
       ++ spread_if "search" search)%list in
    response <- client_get "/posts" queryParams ;;
    ret (VObj [("posts", data response);
               ("total", header response "x-wp-total");
               ("totalPages", header response "x-wp-totalpages");
               ("currentPage", field "page" queryParams)])).

Definition getPost (id : value) : M value :=
  rethrow ("Failed to fetch post " ++ to_String id ++ ": ") (
    response <- client_get ("/posts/" ++ to_String id) [] ;;
    ret (data response)).

Definition createPost (params : value) : M value :=
  rethrow "Failed to create post: " (
    title <- read params "title" ;;
    if negb (truthy title) then throw (JsError "Post title is required") else
    content <- read params "content" ;;
    excerpt <- read params "excerpt" ;;
    status <- read params "status" ;;
    featured_media <- read params "featured_media" ;;
    categories <- read params "categories" ;;
    tags <- read params "tags" ;;
    let payload :=
      ([("title", title);
        ("content", js_or content (VStr EmptyString));
        ("excerpt", js_or excerpt (VStr EmptyString));
        ("status", js_or status (VStr "draft"))]
       ++ spread_if "featured_media" featured_media
       ++ spread_if "categories" categories
       ++ spread_if "tags" tags)%list in
    response <- client_post "/posts" (JsonBody (VObj payload)) [] ;;
    let d := data response in
    id <- read d "id" ;;
    title' <- read d "title" ;;
    rendered <- read title' "rendered" ;;
    link <- read d "link" ;;
    status' <- read d "status" ;;
    content' <- read d "content" ;;
    crendered <- read content' "rendered" ;;
    ret (VObj [("id", id); ("title", rendered); ("link", link);
               ("status", status'); ("content", crendered)])).

Definition updatePost (id params : value) : M value :=
  rethrow ("Failed to update post " ++ to_String id ++ ": ") (
    title <- read params "title" ;;
    content <- read params "content" ;;
    excerpt <- read params "excerpt" ;;
    status <- read params "status" ;;
    featured_media <- read params "featured_media" ;;
    categories <- read params "categories" ;;
    tags <- read params "tags" ;;
    let payload :=
      (spread_if "title" title ++ spread_if "content" content
       ++ spread_if "excerpt" excerpt ++ spread_if "status" status
       ++ spread_if "featured_media" featured_media
       ++ spread_if "categories" categories ++ spread_if "tags" tags)%list in
    response <- client_post ("/posts/" ++ to_String id) (JsonBody (VObj payload)) [] ;;
    project_post (data response)).

Definition deletePost (id force0 : value) : M value :=
  let force := default_to (VBool false) force0 in
  rethrow ("Failed to delete post " ++ to_String id ++ ": ") (
    response <- client_delete ("/posts/" ++ to_String id) [("force", force)] ;;
    let message :=
      if truthy force then "Post permanently deleted" else "Post moved to trash" in
    id' <- read (data response) "id" ;;
    ret (VObj [("message", VStr message); ("id", id')])).

Definition getCategories (params0 : value) : M value :=
  let params := default_to (VObj []) params0 in
  rethrow "Failed to fetch categories: " (
    per_page <- read params "per_page" ;;
    search <- read params "search" ;;
    let queryParams :=
      ([("per_page", Math_min (js_or per_page (VNum 10)) 100)]
       ++ spread_if "search" search)%list in
    response <- client_get "/categories" queryParams ;;
    ret (VObj [("categories", data response);
               ("total", header response "x-wp-total")])).

Definition getTags (params0 : value) : M value :=
  let params := default_to (VObj []) params0 in
  rethrow "Failed to fetch tags: " (
    per_page <- read params "per_page" ;;
    search <- read params "search" ;;
    let queryParams :=
      ([("per_page", Math_min (js_or per_page (VNum 10)) 100)]
       ++ spread_if "search" search)%list in
    response <- client_get "/tags" queryParams ;;
    ret (VObj [("tags", data response);
               ("total", header response "x-wp-total")])).

Definition publishPost (id : value) : M value :=
  rethrow ("Failed to publish post " ++ to_String id ++ ": ") (
    response <- client_post ("/posts/" ++ to_String id)
                  (JsonBody (VObj [("status", VStr "publish")])) [] ;;
    project_post (data response)).

(** *** Pages *)

Definition getPages (params0 : value) : M value :=
  let params := default_to (VObj []) params0 in
  rethrow "Failed to fetch pages: " (
    per_page <- read params "per_page" ;;
    page <- read params "page" ;;
    status <- read params "status" ;;
    orderby <- read params "orderby" ;;
    order <- read params "order" ;;
    search <- read params "search" ;;
    parent <- read params "parent" ;;
    let queryParams :=
      ([("per_page", Math_min (js_or per_page (VNum 10)) 100);
        ("page", js_or page (VNum 1));
        ("status", js_or status (VStr "publish"));
        ("orderby", js_or orderby (VStr "date"));
        ("order", js_or order (VStr "desc"))]
       ++ spread_if "search" search
       ++ spread_defined "parent" parent)%list in
    response <- client_get "/pages" queryParams ;;
    ret (VObj [("pages", data response);
               ("total", header response "x-wp-total");
               ("totalPages", header response "x-wp-totalpages");
               ("currentPage", field "page" queryParams)])).

Definition getPage (id : value) : M value :=
  rethrow ("Failed to fetch page " ++ to_String id ++ ": ") (
    response <- client_get ("/pages/" ++ to_String id) [] ;;
    ret (data response)).

(** The projection of create and update page. *)
Definition project_page (d : value) : M value :=
  id <- read d "id" ;;
  title <- read d "title" ;;
  rendered <- read title "rendered" ;;
  link <- read d "link" ;;
  status <- read d "status" ;;
  parent <- read d "parent" ;;
  ret (VObj [("id", id); ("title", rendered); ("link", link);
             ("status", status); ("parent", parent)]).

Definition createPage (params : value) : M value :=
  rethrow "Failed to create page: " (
    title <- read params "title" ;;
    if negb (truthy title) then throw (JsError "Page title is required") else
    content <- read params "content" ;;
    excerpt <- read params "excerpt" ;;
    status <- read params "status" ;;
    featured_media <- read params "featured_media" ;;
    parent <- read params "parent" ;;
    let payload :=
      ([("title", title);
        ("content", js_or content (VStr EmptyString));
        ("excerpt", js_or excerpt (VStr EmptyString));
        ("status", js_or status (VStr "draft"))]
       ++ spread_if "featured_media" featured_media
       ++ spread_defined "parent" parent)%list in
    response <- client_post "/pages" (JsonBody (VObj payload)) [] ;;
    project_page (data response)).

Definition updatePage (id params : value) : M value :=
  rethrow ("Failed to update page " ++ to_String id ++ ": ") (
    title <- read params "title" ;;
    content <- read params "content" ;;
    excerpt <- read params "excerpt" ;;
    status <- read params "status" ;;
    featured_media <- read params "featured_media" ;;
    parent <- read params "parent" ;;
    let payload :=
      (spread_if "title" title ++ spread_if "content" content
       ++ spread_if "excerpt" excerpt ++ spread_if "status" status
       ++ spread_if "featured_media" featured_media
       ++ spread_defined "parent" parent)%list in
    response <- client_post ("/pages/" ++ to_String id) (JsonBody (VObj payload)) [] ;;
    project_page (data response)).

Definition deletePage (id force0 : value) : M value :=
  let force := default_to (VBool false) force0 in
  rethrow ("Failed to delete page " ++ to_String id ++ ": ") (
    response <- client_delete ("/pages/" ++ to_String id) [("force", force)] ;;
    let message :=
      if truthy force then "Page permanently deleted" else "Page moved to trash" in
    id' <- read (data response) "id" ;;
    ret (VObj [("message", VStr message); ("id", id')])).

Definition publishPage (id : value) : M value :=
  rethrow ("Failed to publish page " ++ to_String id ++ ": ") (
    response <- client_post ("/pages/" ++ to_String id)
                  (JsonBody (VObj [("status", VStr "publish")])) [] ;;
    project_post (data response)).

(** *** Media *)

Definition lower_ascii (c : ascii) : ascii :=
  let n := nat_of_ascii c in
  if andb (Nat.leb 65 n) (Nat.leb n 90) then ascii_of_nat (n + 32) else c.

Fixpoint toLowerCase (s : string) : string :=
  match s with
  | EmptyString => EmptyString
  | String c rest => String (lower_ascii c) (toLowerCase rest)
  end.

(** [s.split(".").pop()]: what follows the last dot, the whole of [s] when
    it has none. *)
Fixpoint last_segment (s acc : string) : string :=
  match s with
  | EmptyString => acc
  | String c rest =>
      if Ascii.eqb c "."%char then last_segment rest EmptyString
      else last_segment rest (acc ++ String c EmptyString)
  end.

Definition mimeTypes : list (string * string) :=
  [("jpg", "image/jpeg"); ("jpeg", "image/jpeg"); ("png", "image/png");
   ("gif", "image/gif"); ("webp", "image/webp"); ("svg", "image/svg+xml");
   ("pdf", "application/pdf"); ("mp4", "video/mp4"); ("mp3", "audio/mpeg");
   ("wav", "audio/wav")].

(** What [mimeTypes[ext] || "application/octet-stream"] evaluates to.  The
    table is an object literal, so besides its ten own keys it answers to the
    keys it inherits from [Object.prototype]; two of those are written in
    lower case and so can come out of [toLowerCase]: "constructor", which is
    the function [Object], and "__proto__", which is [Object.prototype].
    Both are truthy, so [||] keeps them. *)
Inductive mime : Type :=
| MimeType (s : string)
| ObjectConstructor
| ObjectPrototype.

Definition mime_lookup (ext : string) : mime :=
  match assoc ext mimeTypes with
  | Some m => MimeType m
  | None =>
      if ext =? "constructor" then ObjectConstructor
      else if ext =? "__proto__" then ObjectPrototype
      else MimeType "application/octet-stream"
  end.

(** [String(m)], which is what the HTTP client writes for a header value. *)
Definition mime_String (m : mime) : string :=
  match m with
  | MimeType s => s
  | ObjectConstructor => "function Object() { [native code] }"
  | ObjectPrototype => "[object Object]"
  end.

(** [getMimeType(filename)].  A [filename] that is not a string has no
    callable [split].  [toLowerCase] is modelled on the ASCII letters: the
    keys looked up are ASCII, and no other capital letter lower-cases into
    one of them. *)
Definition getMimeType (filename : value) : M mime :=
  match filename with
  | VStr f =>
      let ext := toLowerCase (last_segment f EmptyString) in
      ret (mime_lookup ext)
  | VUndef | VNull => _ <- read filename "split" ;; ret (MimeType EmptyString)
  | _ => throw (JsError "filename.split is not a function")
  end.

(** [Buffer.from(data, "base64")] *)
Definition Buffer_from (d : value) : M body :=
  match d with
  | VStr s => ret (BufferBase64 s)
  | _ => lift (Buffer_from_other d)
  end.

(** The projection of [uploadMedia]. *)
Definition project_upload (d : value) : M value :=
  id <- read d "id" ;;
  title <- read d "title" ;;
  rendered <- read title "rendered" ;;
  source_url <- read d "source_url" ;;
  media_type <- read d "media_type" ;;
  mime_type <- read d "mime_type" ;;
  link <- read d "link" ;;
  ret (VObj [("id", id); ("title", rendered); ("source_url", source_url);
             ("media_type", media_type); ("mime_type", mime_type);
             ("link", link)]).

Definition uploadMedia (params : value) : M value :=
  rethrow "Failed to upload media: " (
    filename <- read params "filename" ;;
    if negb (truthy filename) then throw (JsError "Filename is required") else
    filedata <- read params "data" ;;
    if negb (truthy filedata) then throw (JsError "File data (base64) is required") else
    fileBuffer <- Buffer_from filedata ;;
    mime <- getMimeType filename ;;
    response <- client_post "/media" fileBuffer
                  [("Content-Type", mime_String mime);
                   ("Content-Disposition",
                    "attachment; filename=" ++ dquote ++ to_String filename ++ dquote)] ;;
    title <- read params "title" ;;
    alt_text <- read params "alt_text" ;;
    caption <- read params "caption" ;;
    description <- read params "description" ;;
    let metaUpdates :=
      (spread_if "title" title ++ spread_if "alt_text" alt_text
       ++ spread_if "caption" caption
       ++ spread_if "description" description)%list in
    _ <- match metaUpdates with
         | [] => ret tt
         | _ =>
             id <- read (data response) "id" ;;
             _ <- client_post ("/media/" ++ to_String id)
                    (JsonBody (VObj metaUpdates)) [] ;;
             ret tt
         end ;;
    project_upload (data response)).

(** [v?.k] *)
Definition read_opt (v : value) (k : string) : M value :=
  match v with
  | VUndef | VNull => ret VUndef
  | _ => read v k
  end.

Definition getMedia (id : value) : M value :=
  rethrow ("Failed to fetch media " ++ to_String id ++ ": ") (
    response <- client_get ("/media/" ++ to_String id) [] ;;
    let d := data response in
    id' <- read d "id" ;;
    title <- read d "title" ;;
    rendered <- read title "rendered" ;;
    source_url <- read d "source_url" ;;
    media_type <- read d "media_type" ;;
    mime_type <- read d "mime_type" ;;
    alt_text <- read d "alt_text" ;;
    caption <- read d "caption" ;;
    caption_r <- read_opt caption "rendered" ;;
    description <- read d "description" ;;
    description_r <- read_opt description "rendered" ;;
    media_details <- read d "media_details" ;;
    link <- read d "link" ;;
    ret (VObj [("id", id'); ("title", rendered); ("source_url", source_url);
               ("media_type", media_type); ("mime_type", mime_type);
               ("alt_text", alt_text); ("caption", caption_r);
               ("description", description_r);
               ("media_details", media_details); ("link", link)])).

Definition project_media_item (item : value) : M value :=
  id <- read item "id" ;;
  title <- read item "title" ;;
  rendered <- read title "rendered" ;;
  source_url <- read item "source_url" ;;
  media_type <- read item "media_type" ;;
  mime_type <- read item "mime_type" ;;
  date <- read item "date" ;;
  ret (VObj [("id", id); ("title", rendered); ("source_url", source_url);
             ("media_type", media_type); ("mime_type", mime_type);
             ("date", date)]).

Definition listMedia (params0 : value) : M value :=
  let params := default_to (VObj []) params0 in
  rethrow "Failed to list media: " (
    per_page <- read params "per_page" ;;
    page <- read params "page" ;;
    orderby <- read params "orderby" ;;
    order <- read params "order" ;;
    search <- read params "search" ;;
    media_type <- read params "media_type" ;;
    mime_type <- read params "mime_type" ;;
    let queryParams :=
      ([("per_page", Math_min (js_or per_page (VNum 10)) 100);
        ("page", js_or page (VNum 1));
        ("orderby", js_or orderby (VStr "date"));
        ("order", js_or order (VStr "desc"))]
       ++ spread_if "search" search
       ++ spread_if "media_type" media_type
       ++ spread_if "mime_type" mime_type)%list in
    response <- client_get "/media" queryParams ;;
    media <- js_map "response.data" (data response) project_media_item ;;
    ret (VObj [("media", media);
               ("total", header response "x-wp-total");
               ("totalPages", header response "x-wp-totalpages");
               ("currentPage", field "page" queryParams)])).

Definition deleteMedia (id force0 : value) : M value :=
  let force := default_to (VBool true) force0 in
  rethrow ("Failed to delete media " ++ to_String id ++ ": ") (
    response <- client_delete ("/media/" ++ to_String id) [("force", force)] ;;
    id' <- read (data response) "id" ;;
    ret (VObj [("message", VStr "Media permanently deleted"); ("id", id')])).

(** *** Site *)

Definition getSiteInfo : M value :=
  rethrow "Failed to fetch site info: " (
    response <- client_get "/" [] ;;
    let d := data response in
    name <- read d "name" ;;
    description <- read d "description" ;;
    url <- read d "url" ;;
    timezone <- read d "timezone" ;;
    ret (VObj [("name", name); ("description", description); ("url", url);
               ("timezone", timezone);
               ("authentication", VStr "Basic Auth (Application Password)");
               ("capabilities",
                VObj [("canCreatePosts", VBool true);
                      ("canUpdatePosts", VBool true);
                      ("canDeletePosts", VBool true);
                      ("canCreatePages", VBool true);
                      ("canUpdatePages", VBool true);
                      ("canDeletePages", VBool true);
                      ("canManageCategories", VBool true);
                      ("canManageTags", VBool true);
                      ("canUploadMedia", VBool true);
                      ("canDeleteMedia", VBool true)])])).

Definition project_hit (item : value) : M value :=
  id <- read item "id" ;;
  title <- read item "title" ;;
  url <- read item "url" ;;
  type <- read item "type" ;;
  subtype <- read item "subtype" ;;
  ret (VObj [("id", id); ("title", title); ("url", url); ("type", type);
             ("subtype", subtype)]).

Definition searchSite (params : value) : M value :=
  rethrow "Failed to search site: " (
    search <- read params "search" ;;
    if negb (truthy search) then throw (JsError "Search term is required") else
    per_page <- read params "per_page" ;;
    page <- read params "page" ;;
    type <- read params "type" ;;
    subtype <- read params "subtype" ;;
    let queryParams :=
      ([("search", search);
        ("per_page", Math_min (js_or per_page (VNum 10)) 100);
        ("page", js_or page (VNum 1))]
       ++ spread_if "type" type
       ++ spread_if "subtype" subtype)%list in
    response <- client_get "/search" queryParams ;;
    results <- js_map "response.data" (data response) project_hit ;;
    ret (VObj [("results", results);
               ("total", header response "x-wp-total");
               ("totalPages", header response "x-wp-totalpages");
               ("currentPage", field "page" queryParams);
               ("searchTerm", search)])).

(** ** The dispatcher: the [CallToolRequestSchema] handler of [index.ts] *)

(** The result of a call: [{ content: [{ type: "text", text }], isError }],
    with [isError] absent (here [false]) on success. *)
Record envelope : Type := mkEnvelope {
  text : string;
  isError : bool
}.

(** [{ content: [{ type: "text", text: JSON.stringify(await m, null, 2) }] }] *)
Definition respond (m : M value) : M envelope :=
  v <- m ;; ret (mkEnvelope (JSON_stringify v) false).

(** The [case] labels of the [switch]. *)
Definition dispatch_table : list string :=
  ["get_posts"; "get_post"; "create_post"; "update_post"; "delete_post";
   "get_categories"; "get_tags"; "publish_post"; "get_site_info";
   "search_site"; "upload_media"; "get_media"; "list_media"; "delete_media"].

(** The body of the [try] block: [switch (name) { ... }]. *)
Definition callTool_switch (name : string) (args : value) : M envelope :=
  if name =? "get_posts" then respond (getPosts args)
  else if name =? "get_post" then
    respond (id <- read args "id" ;; getPost id)
  else if name =? "create_post" then respond (createPost args)
  else if name =? "update_post" then
    respond (id <- read args "id" ;; updatePost id args)
  else if name =? "delete_post" then
    respond (id <- read args "id" ;; force <- read args "force" ;;
             deletePost id force)
  else if name =? "get_categories" then respond (getCategories args)
  else if name =? "get_tags" then respond (getTags args)
  else if name =? "publish_post" then
    respond (id <- read args "id" ;; publishPost id)
  else if name =? "get_site_info" then respond getSiteInfo
  else if name =? "search_site" then respond (searchSite args)
  else if name =? "upload_media" then respond (uploadMedia args)
  else if name =? "get_media" then
    respond (id <- read args "id" ;; getMedia id)
  else if name =? "list_media" then respond (listMedia args)
  else if name =? "delete_media" then
    respond (id <- read args "id" ;; force <- read args "force" ;;
             deleteMedia id force)
  else ret (mkEnvelope ("Unknown tool: " ++ name) true).

(** The argument bag of a request: absent, or an object. *)
Definition bag (args : option (list (string * value))) : value :=
  match args with
  | None => VUndef
  | Some fs => VObj fs
  end.

(** The handler: the [switch] inside [try], and the [catch] clause that
    answers [{ content: [{ type: "text", text: `Error: ...` }], isError: true }]. *)
Definition callTool (name : string) (args : option (list (string * value)))
    : M envelope :=
  try_catch (callTool_switch name (bag args))
    (fun e => ret (mkEnvelope ("Error: " ++ error_text e) true)).

End Adapter.

(** ** The list operations, and the page size the interface promises *)

Inductive list_op : Type :=
| ListPosts | ListPages | ListCategories | ListTags | ListMedia | SearchSite.

Definition run_list_op (StringToNumber : string -> option Z)
    (remote : list request -> request -> thrown + response)
    (op : list_op) (params : value) : M value :=
  match op with
  | ListPosts => getPosts StringToNumber remote params
  | ListPages => getPages StringToNumber remote params
  | ListCategories => getCategories StringToNumber remote params
  | ListTags => getTags StringToNumber remote params
  | ListMedia => listMedia StringToNumber remote params
  | SearchSite => searchSite StringToNumber remote params
  end.

(** The [per_page] argument as a caller gives it: absent, or a number. *)
Definition per_page_arg (requested : option Z) : value :=
  match requested with
  | None => VUndef
  | Some n => VNum n
  end.

(** The page size of the tool descriptions, "default: 10, max: 100": the
    default when nothing or zero is requested, the request capped at 100
    otherwise. *)
Definition page_size (requested : option Z) : Z :=
  match requested with
  | None => 10
  | Some n => if (n =? 0)%Z then 10 else Z.min n 100
  end.

(** The page size as the specification words it: the requested value
    clamped to [1,100], the default 10 when it is absent, zero or negative. *)
Definition page_size_spec (requested : option Z) : Z :=
  match requested with
  | None => 10
  | Some n => if (n <=? 0)%Z then 10 else Z.min n 100
  end.

(** ** Notions the statements are written with *)

(** A computation that sends nothing. *)
Definition silent {A : Type} (m : M A) : Prop :=
  forall log, log_after m log = log.

(** The title of a create call is absent or empty: reading it gives a falsy
    value, or the argument bag cannot be read at all. *)
Definition title_missing (params : value) : Prop :=
  match get params "title" with
  | inr t => truthy t = false
  | inl _ => True
  end.

(** The [metaUpdates] object that [uploadMedia] builds from the argument
    bag, and whether it has a key. *)
Definition metaUpdates_of (fs : list (string * value)) : list (string * value) :=
  (spread_if "title" (field "title" fs)
   ++ spread_if "alt_text" (field "alt_text" fs)
   ++ spread_if "caption" (field "caption" fs)
   ++ spread_if "description" (field "description" fs))%list.

Definition supplies_metadata (fs : list (string * value)) : bool :=
  truthy (field "title" fs) || truthy (field "alt_text" fs)
  || truthy (field "caption" fs) || truthy (field "description" fs).

(** The binary upload request of [uploadMedia] for file name [f] and
    base64 text [d]. *)
Definition upload_request (f d : string) : request :=
  mkRequest POST "/media" [] (BufferBase64 d)
    [("Content-Type",
      mime_String (mime_lookup (toLowerCase (last_segment f EmptyString))));
     ("Content-Disposition", "attachment; filename=" ++ dquote ++ f ++ dquote)].

(** ** Sites and built-ins to run the program on *)

Module Fixture.

Definition stringify : value -> string := to_String.

Definition numeric : string -> option Z := fun _ => None.

Definition buffer_other : value -> thrown + body :=
  fun _ => inl (JsError "The first argument must be of type string or an instance of Buffer, ArrayBuffer, or Array or an Array-like Object.").

Definition resource : value :=
  VObj [("id", VNum 7);
        ("title", VObj [("rendered", VStr "photo")]);
        ("link", VStr "https://example.org/?p=7");
        ("status", VStr "draft");
        ("content", VObj [("rendered", VStr "<p>Hi</p>")]);
        ("source_url", VStr "https://example.org/photo.jpg");
        ("media_type", VStr "image");
        ("mime_type", VStr "image/jpeg")].

(** A site that answers every request with the same resource. *)
Definition site_ok : list request -> request -> thrown + response :=
  fun _ _ => inr (mkResponse resource [("x-wp-total", "1"); ("x-wp-totalpages", "1")]).

(** A site that is unreachable. *)
Definition site_down : list request -> request -> thrown + response :=
  fun _ _ => inl (JsError "connect ECONNREFUSED").

(** A site that accepts the binary upload and rejects every other request. *)
Definition site_meta_fails : list request -> request -> thrown + response :=
  fun _ r =>
    if rq_url r =? "/media" then inr (mkResponse resource [])
    else inl (JsError "Request failed with status code 500").


(** The handler with these built-ins. *)
Definition tool := callTool stringify numeric buffer_other.

(** Argument bags of [upload_media]. *)
Definition photo_alt (alt : string) : list (string * value) :=
  [("filename", VStr "photo.jpg"); ("data", VStr "AAAA"); ("alt_text", VStr alt)].


End Fixture.

(** ** The rest of the program: routes, catalogue, earlier dispatcher,
       start-up check and logger *)

(** A computation that adds at most [n] requests to the log, and only at
    its end. *)
Definition sends_at_most {A : Type} (n : nat) (m : M A) : Prop :=
  forall log, exists rs,
    log_after m log = (log ++ rs)%list /\ List.length rs <= n.

(** The tools that take an [id], with the method and the path their request
    goes to. *)
Definition id_routes : list (string * (method * string)) :=
  [("get_post", (GET, "/posts/")); ("update_post", (POST, "/posts/"));
   ("delete_post", (DELETE, "/posts/")); ("publish_post", (POST, "/posts/"));
   ("get_media", (GET, "/media/")); ("delete_media", (DELETE, "/media/"))].


(** The fields [updatePost] copies into its payload. *)
Definition post_fields : list string :=
  ["title"; "content"; "excerpt"; "status"; "featured_media"; "categories";
   "tags"].


(** The dispatcher of the entry point without the search and media tools:
    the same handler with nine [case] labels. *)
Definition posts_table : list string :=
  ["get_posts"; "get_post"; "create_post"; "update_post"; "delete_post";
   "get_categories"; "get_tags"; "publish_post"; "get_site_info"].

Definition callTool_switch_posts (JSON_stringify : value -> string)
    (StringToNumber : string -> option Z)
    (remote : list request -> request -> thrown + response)
    (name : string) (args : value) : M envelope :=
  if name =? "get_posts" then
    respond JSON_stringify (getPosts StringToNumber remote args)
  else if name =? "get_post" then
    respond JSON_stringify (id <- read args "id" ;; getPost remote id)
  else if name =? "create_post" then
    respond JSON_stringify (createPost remote args)
  else if name =? "update_post" then
    respond JSON_stringify (id <- read args "id" ;; updatePost remote id args)
  else if name =? "delete_post" then
    respond JSON_stringify
      (id <- read args "id" ;; force <- read args "force" ;;
       deletePost remote id force)
  else if name =? "get_categories" then
    respond JSON_stringify (getCategories StringToNumber remote args)
  else if name =? "get_tags" then
    respond JSON_stringify (getTags StringToNumber remote args)
  else if name =? "publish_post" then
    respond JSON_stringify (id <- read args "id" ;; publishPost remote id)
  else if name =? "get_site_info" then
    respond JSON_stringify (getSiteInfo remote)
  else ret (mkEnvelope ("Unknown tool: " ++ name) true).

Definition callTool_posts (JSON_stringify : value -> string)
    (StringToNumber : string -> option Z)
    (remote : list request -> request -> thrown + response)
    (name : string) (args : option (list (string * value))) : M envelope :=
  try_catch (callTool_switch_posts JSON_stringify StringToNumber remote name (bag args))
    (fun e => ret (mkEnvelope ("Error: " ++ error_text e) true)).

(** *** Start-up: the required environment variables *)

Definition requiredEnvVars : list string :=
  ["WORDPRESS_URL"; "WORDPRESS_USERNAME"; "WORDPRESS_PASSWORD"].

(** [process.env]: a variable is unset or holds a string. *)
Definition environment : Type := string -> option string.

(** [!process.env[envVar]] *)
Definition env_missing (env : environment) (envVar : string) : bool :=
  match env envVar with
  | None => true
  | Some s => s =? EmptyString
  end.

(** [for (const envVar of vars) { if (!process.env[envVar]) throw ... }]:
    the error thrown, if any. *)
Fixpoint check_env (env : environment) (vars : list string) : option thrown :=
  match vars with
  | [] => None
  | envVar :: rest =>
      if env_missing env envVar
      then Some (JsError ("Missing required environment variable: " ++ envVar))
      else check_env env rest
  end.

Definition validate_env (env : environment) : option thrown :=
  check_env env requiredEnvVars.

(** *** The logger *)

Inductive LogLevel : Type := Ldebug | Linfo | Lwarn | Lerror.

Definition level_name (l : LogLevel) : string :=
  match l with
  | Ldebug => "debug"
  | Linfo => "info"
  | Lwarn => "warn"
  | Lerror => "error"
  end.

(** The [levels] record of [shouldLog]. *)
Definition levels : list (string * nat) :=
  [("debug", 0); ("info", 1); ("warn", 2); ("error", 3)].

(** [process.env.LOG_LEVEL || "info"], cast to [LogLevel] without a check. *)
Definition logLevel_of (env : environment) : string :=
  match env "LOG_LEVEL" with
  | None => "info"
  | Some s => if s =? EmptyString then "info" else s
  end.

(** [levels[level] >= levels[this.logLevel]]: a comparison with what is not
    a number of the record is false. *)
Definition shouldLog (logLevel : string) (level : LogLevel) : bool :=
  match assoc (level_name level) levels, assoc logLevel levels with
  | Some a, Some b => Nat.leb b a
  | _, _ => false
  end.

(** A log record, without its timestamp. *)
Record LogEntry : Type := mkLogEntry {
  entry_level : LogLevel;
  entry_message : string;
  entry_metadata : option value
}.

(** [typeof v === "object"] *)
Definition typeof_object (v : value) : bool :=
  match v with
  | VNull | VArr _ | VObj _ => true
  | _ => false
  end.

(** [log(level, message, metadata)]: the record written to stderr, if one
    is. *)
Definition log (logLevel : string) (level : LogLevel) (message : string)
    (metadata : value) : option LogEntry :=
  if negb (shouldLog logLevel level) then None
  else Some (mkLogEntry level message
               (if truthy metadata && typeof_object metadata
                then Some metadata else None)).

(** The order of the levels, and whether a string has a dot: notions of the
    statements. *)
Definition rank (l : LogLevel) : nat :=
  match l with
  | Ldebug => 0
  | Linfo => 1
  | Lwarn => 2
  | Lerror => 3
  end.

Fixpoint has_dot (s : string) : bool :=
  match s with
  | EmptyString => false
  | String c rest => Ascii.eqb c "."%char || has_dot rest
  end.

(** What is looked up for an extension already cut off a file name. *)
Definition mime_of_extension (ext : string) : mime :=
  mime_lookup (toLowerCase ext).

(** *** More sites and an environment to run on *)

Module Samples.

(** A site that answers every request with a list of two resources. *)
Definition site_list : list request -> request -> thrown + response :=
  fun _ _ =>
    inr (mkResponse (VArr [Fixture.resource; Fixture.resource])
           [("x-wp-total", "2"); ("x-wp-totalpages", "1")]).

(** An environment with the URL set, the user name empty and no password. *)
Definition env_partial : environment :=
  fun k =>
    if k =? "WORDPRESS_URL" then Some "https://example.org"
    else if k =? "WORDPRESS_USERNAME" then Some EmptyString
    else None.

(** An environment with LOG_LEVEL in capitals. *)
Definition env_loud : environment :=
  fun k => if k =? "LOG_LEVEL" then Some "INFO" else None.

End Samples.

(** * Properties *)

Section Properties.

Variable JSON_stringify : value -> string.
Variable StringToNumber : string -> option Z.
Variable Buffer_from_other : value -> thrown + body.
Variable remote : list request -> request -> thrown + response.

Let handler := callTool JSON_stringify StringToNumber Buffer_from_other remote.
Let switch := callTool_switch JSON_stringify StringToNumber Buffer_from_other remote.

(** ** Facts about computations and about the methods *)

Lemma try_catch_inr {A : Type} (m : M A) (h : thrown -> M A) log a log' :
  m log = (inr a, log') -> try_catch m h log = (inr a, log').
Proof. unfold try_catch; intros ->; reflexivity. Qed.

Lemma try_catch_inl {A : Type} (m : M A) (h : thrown -> M A) log e log' :
  m log = (inl e, log') -> try_catch m h log = h e log'.
Proof. unfold try_catch; intros ->; reflexivity. Qed.

Lemma rethrow_log {A : Type} (p : string) (m : M A) log :
  log_after (rethrow p m) log = log_after m log.
Proof.
  unfold log_after, rethrow, try_catch, throw.
  destruct (m log) as [[e | a] log']; reflexivity.
Qed.

Lemma rethrow_result {A : Type} (p : string) (m : M A) log :
  result_of (rethrow p m) log =
  match result_of m log with
  | inl e => inl (JsError (p ++ error_text e))
  | inr a => inr a
  end.
Proof.
  unfold result_of, rethrow, try_catch, throw.
  destruct (m log) as [[e | a] log']; reflexivity.
Qed.

Lemma eqb_not_in (name k : string) (l : list string) :
  ~ In name l -> In k l -> (name =? k) = false.
Proof.
  intros Hn Hk. apply String.eqb_neq. intros ->. exact (Hn Hk).
Qed.

Ltac unfold_monad :=
  unfold log_after, result_of, rethrow, try_catch, throw, respond, bind, ret,
    read, lift, client_get, client_post, client_delete, send in *.

Lemma bind_read_obj {B : Type} (fs : list (string * value)) (k : string)
    (f : value -> M B) :
  bind (read (VObj fs) k) f = f (field k fs).
Proof. reflexivity. Qed.

Lemma silent_ret {A : Type} (a : A) : silent (ret a).
Proof. intros log; reflexivity. Qed.

Lemma silent_throw {A : Type} (e : thrown) : silent (@throw A e).
Proof. intros log; reflexivity. Qed.

Lemma silent_read (v : value) (k : string) : silent (read v k).
Proof. intros log; reflexivity. Qed.

Lemma silent_bind {A B : Type} (m : M A) (k : A -> M B) :
  silent m -> (forall a, silent (k a)) -> silent (bind m k).
Proof.
  intros Hm Hk log. unfold log_after, bind.
  specialize (Hm log). unfold log_after in Hm.
  destruct (m log) as [[e | a] log']; simpl in *; subst.
  - reflexivity.
  - apply Hk.
Qed.

Lemma silent_mapM {A B : Type} (f : A -> M B) (l : list A) :
  (forall a, silent (f a)) -> silent (mapM f l).
Proof.
  intros Hf. induction l as [| x rest IH]; simpl.
  - apply silent_ret.
  - apply silent_bind; [apply Hf |]. intros y.
    apply silent_bind; [exact IH |]. intros ys. apply silent_ret.
Qed.

Lemma silent_js_map (owner : string) (v : value) (f : value -> M value) :
  (forall a, silent (f a)) -> silent (js_map owner v f).
Proof.
  intros Hf. destruct v; simpl;
    try apply silent_throw;
    try (apply silent_bind; [apply silent_read | intros; apply silent_ret]).
  apply silent_bind; [apply silent_mapM; exact Hf | intros; apply silent_ret].
Qed.

Ltac silence :=
  repeat first
    [ apply silent_ret | apply silent_throw | apply silent_read
    | apply silent_js_map; intros ?
    | apply silent_bind; [| intros ?] ].

Lemma silent_project_post d : silent (project_post d).
Proof. unfold project_post. silence. Qed.

Lemma silent_project_page d : silent (project_page d).
Proof. unfold project_page. silence. Qed.

Lemma silent_project_upload d : silent (project_upload d).
Proof. unfold project_upload. silence. Qed.

Lemma silent_project_media_item d : silent (project_media_item d).
Proof. unfold project_media_item. silence. Qed.

Lemma silent_project_hit d : silent (project_hit d).
Proof. unfold project_hit. silence. Qed.

(** One request, then nothing more. *)
Lemma log_send_then {B : Type} (r : request) (k : response -> M B) log :
  (forall x, silent (k x)) ->
  log_after (bind (send remote r) k) log = (log ++ [r])%list.
Proof.
  intros Hk. unfold log_after, bind, send.
  destruct (remote log r) as [e | resp]; [reflexivity |].
  apply Hk.
Qed.

Lemma page_size_sent (requested : option Z) :
  Math_min StringToNumber (js_or (per_page_arg requested) (VNum 10)) 100
  = VNum (page_size requested).
Proof.
  destruct requested as [n |]; simpl; [| reflexivity].
  unfold js_or; simpl. destruct (n =? 0)%Z; reflexivity.
Qed.

(** The handler adds no request of its own to those of the [switch]. *)
Lemma callTool_log name args log :
  log_after (handler name args) log = log_after (switch name (bag args)) log.
Proof.
  subst handler switch. unfold callTool, log_after, try_catch.
  destruct (callTool_switch _ _ _ _ name (bag args) log) as [[e | env] log'];
    reflexivity.
Qed.

Lemma respond_log (m : M value) log :
  log_after (respond JSON_stringify m) log = log_after m log.
Proof.
  unfold respond, log_after, bind, ret.
  destruct (m log) as [[e | v] log']; reflexivity.
Qed.

(** What the handler answers when an adapter method is called on the
    argument bag as it is. *)
Lemma callTool_respond (m : M value) name args log :
  switch name (bag args) = respond JSON_stringify m ->
  handler name args log =
  match m log with
  | (inr v, log') => (inr (mkEnvelope (JSON_stringify v) false), log')
  | (inl e, log') => (inr (mkEnvelope ("Error: " ++ error_text e) true), log')
  end.
Proof.
  subst handler switch. intros H. unfold callTool, try_catch. rewrite H.
  unfold respond, bind, ret.
  destruct (m log) as [[e | v] log']; reflexivity.
Qed.

Lemma truthy_VStr (s : string) : s <> EmptyString -> truthy (VStr s) = true.
Proof.
  intros H. simpl. destruct (String.eqb_spec s EmptyString); [contradiction | reflexivity].
Qed.

Lemma metaUpdates_none fs :
  supplies_metadata fs = false -> metaUpdates_of fs = [].
Proof.
  unfold supplies_metadata, metaUpdates_of, spread_if. intros H.
  repeat (apply orb_false_elim in H; destruct H as [H ?]).
  repeat match goal with E : truthy _ = false |- _ => rewrite E; clear E end.
  reflexivity.
Qed.

Lemma metaUpdates_some fs :
  supplies_metadata fs = true -> exists x rest, metaUpdates_of fs = x :: rest.
Proof.
  unfold supplies_metadata, metaUpdates_of, spread_if. intros H.
  destruct (truthy (field "title" fs)); [simpl; eauto |].
  destruct (truthy (field "alt_text" fs)); [simpl; eauto |].
  destruct (truthy (field "caption" fs)); [simpl; eauto |].
  destruct (truthy (field "description" fs)); [simpl; eauto | discriminate].
Qed.

(** [uploadMedia] on a bag with a file name and data, past the validation. *)
Lemma uploadMedia_valid fs f d :
  field "filename" fs = VStr f -> f <> EmptyString ->
  field "data" fs = VStr d -> d <> EmptyString ->
  uploadMedia Buffer_from_other remote (VObj fs) =
  rethrow "Failed to upload media: " (
    response <- send remote (upload_request f d) ;;
    _ <- match metaUpdates_of fs with
         | [] => ret tt
         | _ =>
             id <- read (data response) "id" ;;
             _ <- client_post remote ("/media/" ++ to_String id)
                    (JsonBody (VObj (metaUpdates_of fs))) [] ;;
             ret tt
         end ;;
    project_upload (data response)).
Proof.
  intros Hf Hfne Hd Hdne. unfold uploadMedia.
  rewrite !bind_read_obj, Hf, (truthy_VStr f Hfne). simpl negb. cbv iota.
  rewrite ?bind_read_obj, Hd, (truthy_VStr d Hdne). simpl negb. cbv iota.
  reflexivity.
Qed.


(** A projection reads the response and nothing else. *)
Lemma project_upload_static d :
  exists r, forall log, project_upload d log = (r, log).
Proof.
  unfold project_upload. unfold_monad.
  destruct (get d "id"); [eexists; reflexivity |].
  destruct (get d "title") as [e | t]; [eexists; reflexivity |].
  destruct (get t "rendered"); [eexists; reflexivity |].
  destruct (get d "source_url"); [eexists; reflexivity |].
  destruct (get d "media_type"); [eexists; reflexivity |].
  destruct (get d "mime_type"); [eexists; reflexivity |].
  destruct (get d "link"); eexists; reflexivity.
Qed.


Lemma silent_Buffer_from d : silent (Buffer_from Buffer_from_other d).
Proof. intros log. destruct d; reflexivity. Qed.

Lemma silent_getMimeType f : silent (getMimeType f).
Proof. intros log. destruct f; reflexivity. Qed.

(** ** The claims *)

(** C1. The handler answers every call, whatever the operation name and the
    argument bag, with an envelope: it never throws.  Whenever the body of
    its [try] block throws, the answer is the failure envelope whose text is
    "Error: " followed by the message of what was thrown, and whenever the
    body completes, the answer is what the body produced. *)
Theorem callTool_never_throws :
  forall (name : string) (args : option (list (string * value)))
         (log : list request),
    (exists env, result_of (handler name args) log = inr env) /\
    (forall e log',
        switch name (bag args) log = (inl e, log') ->
        handler name args log =
        (inr (mkEnvelope ("Error: " ++ error_text e) true), log')) /\
    (forall env log',
        switch name (bag args) log = (inr env, log') ->
        handler name args log = (inr env, log')).
Proof.
  intros name args log.
  subst handler switch. unfold callTool, result_of.
  split; [| split].
  - unfold try_catch.
    destruct (callTool_switch _ _ _ _ name (bag args) log) as [[e | env] log'];
      simpl; eauto.
  - intros e log' H. rewrite (try_catch_inl _ _ _ _ _ H). reflexivity.
  - intros env log' H. apply try_catch_inr. exact H.
Qed.

(** C2. An operation name outside the dispatch table is answered with the
    failure envelope "Unknown tool: <name>", as an ordinary return of the
    handler, and the request log is left as it was: nothing is sent. *)
Theorem callTool_unknown_tool :
  forall (name : string) (args : option (list (string * value)))
         (log : list request),
    ~ In name dispatch_table ->
    handler name args log =
    (inr (mkEnvelope ("Unknown tool: " ++ name) true), log).
Proof.
  intros name args log Hn.
  subst handler. unfold callTool. apply try_catch_inr.
  unfold callTool_switch.
  repeat match goal with
  | |- context [name =? ?k] =>
      rewrite (eqb_not_in name k dispatch_table Hn) by (simpl; tauto)
  end.
  reflexivity.
Qed.

(** C3 (amended). [deleteMedia] issues one DELETE to the media item, and
    its [force] parameter is [true] when the caller gives none and the
    caller's own value otherwise; the [delete_media] tool passes the [force]
    argument of the call through to it. *)
Theorem deleteMedia_force_forwarded :
  forall (id force : value) (log : list request),
    log_after (deleteMedia remote id force) log =
    (log ++ [mkRequest DELETE ("/media/" ++ to_String id)
               [("force", default_to (VBool true) force)] NoBody []])%list
    /\ default_to (VBool true) VUndef = VBool true
    /\ (force <> VUndef -> default_to (VBool true) force = force)
    /\ (forall fs,
          log_after (handler "delete_media" (Some fs)) log =
          log_after (deleteMedia remote (field "id" fs) (field "force" fs)) log).
Proof.
  intros id force log. split; [| split; [| split]].
  - unfold deleteMedia. rewrite rethrow_log. unfold_monad.
    destruct (remote log _) as [e | resp]; simpl; [reflexivity |].
    destruct (get (data resp) "id"); reflexivity.
  - reflexivity.
  - intros H. destruct force; try reflexivity. contradiction.
  - intros fs. subst handler. unfold callTool, callTool_switch. cbn [String.eqb Ascii.eqb Bool.eqb bag].
    unfold_monad. cbn [get].
    destruct (deleteMedia remote (field "id" fs) (field "force" fs) log) as [[e|v] l]; reflexivity.
Qed.

(** C4 (amended). Every list operation sends one GET whose [per_page]
    parameter is 10 when the caller gives no [per_page] or gives 0, and the
    smaller of the given number and 100 otherwise.  (The search operation
    sends it once its search term is there.) *)
Theorem list_operations_page_size :
  forall (op : list_op) (params : value) (fs : list (string * value))
         (requested : option Z) (log : list request),
    default_to (VObj []) params = VObj fs ->
    field "per_page" fs = per_page_arg requested ->
    (op = SearchSite -> params = VObj fs /\ truthy (field "search" fs) = true) ->
    exists r,
      log_after (run_list_op StringToNumber remote op params) log = (log ++ [r])%list
      /\ rq_method r = GET
      /\ field "per_page" (rq_params r) = VNum (page_size requested).
Proof.
  intros op params fs requested log Hp Hpp Hs.
  destruct op; simpl;
    [ unfold getPosts | unfold getPages | unfold getCategories | unfold getTags
    | unfold listMedia
    | unfold searchSite; destruct (Hs eq_refl) as [-> Hsearch] ];
    try rewrite Hp; rewrite rethrow_log, !bind_read_obj;
    try rewrite Hsearch; simpl negb; cbv iota;
    rewrite Hpp, page_size_sent; unfold client_get;
    eexists; (split; [apply log_send_then; intros; silence;
                      first [apply silent_project_media_item | apply silent_project_hit]
                     | split; reflexivity]).
Qed.

(** C5 (amended). On an [upload_media] call that gives a file name and
    base64 data (non-empty strings), the first request is the binary upload
    POST to [/media].  When none of title, alt text, caption and description
    is given non-empty, that is the only request.  When at least one is
    given non-empty and the upload is answered with a body whose [id] can be
    read, exactly two requests are issued, the second a POST of the
    non-empty metadata to [/media/<id>]; and if that second request fails
    the whole operation fails with "Failed to upload media: " and the
    diagnostic, which the [upload_media] tool answers as a failure
    envelope. *)
Theorem uploadMedia_requests :
  forall (fs : list (string * value)) (f d : string) (log : list request),
    field "filename" fs = VStr f -> f <> EmptyString ->
    field "data" fs = VStr d -> d <> EmptyString ->
    let upload := upload_request f d in
    let call := uploadMedia Buffer_from_other remote (VObj fs) in
    (supplies_metadata fs = false -> log_after call log = (log ++ [upload])%list)
    /\ (supplies_metadata fs = true ->
        forall resp id,
          remote log upload = inr resp ->
          get (data resp) "id" = inr id ->
          let update :=
            mkRequest POST ("/media/" ++ to_String id) []
              (JsonBody (VObj (metaUpdates_of fs))) [] in
          log_after call log = (log ++ [upload; update])%list
          /\ forall e,
               remote (log ++ [upload])%list update = inl e ->
               result_of call log
               = inl (JsError ("Failed to upload media: " ++ error_text e))
               /\ handler "upload_media" (Some fs) log
                  = (inr (mkEnvelope
                            ("Error: " ++ "Failed to upload media: " ++ error_text e)
                            true),
                     (log ++ [upload; update])%list)).
Proof.
  intros fs f d log Hf Hfne Hd Hdne upload call.
  subst call. rewrite (uploadMedia_valid fs f d Hf Hfne Hd Hdne).
  fold upload. split.
  - intros Hno. rewrite (metaUpdates_none fs Hno), rethrow_log.
    apply log_send_then. intros resp.
    apply silent_bind; [apply silent_ret | intros; apply silent_project_upload].
  - intros Hsome resp id Hresp Hid update.
    destruct (metaUpdates_some fs Hsome) as [x [rest Hx]].
    assert (Hrun :
      (response <- send remote upload ;;
       _ <- match metaUpdates_of fs with
            | [] => ret tt
            | _ =>
                id <- read (data response) "id" ;;
                _ <- client_post remote ("/media/" ++ to_String id)
                       (JsonBody (VObj (metaUpdates_of fs))) [] ;;
                ret tt
            end ;;
       project_upload (data response)) log
      = match remote (log ++ [upload])%list update with
        | inl e => (inl e, (log ++ [upload; update])%list)
        | inr _ =>
            (fst (project_upload (data resp) []), (log ++ [upload; update])%list)
        end).
    { unfold bind at 1. unfold send at 1. rewrite Hresp.
      replace (match metaUpdates_of fs with
               | [] => ret tt
               | _ =>
                   id <- read (data resp) "id" ;;
                   _ <- client_post remote ("/media/" ++ to_String id)
                          (JsonBody (VObj (metaUpdates_of fs))) [] ;;
                   ret tt
               end)
        with (id <- read (data resp) "id" ;;
              _ <- client_post remote ("/media/" ++ to_String id)
                     (JsonBody (VObj (metaUpdates_of fs))) [] ;;
              ret tt)
        by (rewrite Hx; reflexivity).
      unfold bind, read, lift, client_post, send, ret. rewrite Hid.
      fold update. rewrite <- app_assoc. simpl app.
      destruct (remote (log ++ [upload])%list update) as [e | resp2];
        [reflexivity |].
      destruct (project_upload_static (data resp)) as [r Hr].
      rewrite !Hr. reflexivity. }
    split.
    + unfold log_after, rethrow, try_catch, throw. rewrite Hrun.
      destruct (remote (log ++ [upload])%list update) as [e | resp2];
        [reflexivity |].
      destruct (fst (project_upload (data resp) [])); reflexivity.
    + intros e He. rewrite He in Hrun. split.
      * unfold result_of, rethrow, try_catch, throw. rewrite Hrun. reflexivity.
      * rewrite (callTool_respond (uploadMedia Buffer_from_other remote (VObj fs)))
          by reflexivity.
        rewrite (uploadMedia_valid fs f d Hf Hfne Hd Hdne). fold upload.
        unfold rethrow, try_catch, throw. rewrite Hrun. reflexivity.
Qed.

(** C6. A [create_post] or [create_page] call whose title is absent or
    empty fails before anything is sent: the adapter method throws and the
    request log is unchanged.  Whenever the argument bag is there to be
    read, the error is the validation message ("Post title is required",
    "Page title is required"); the [create_post] tool answers with the
    failure envelope carrying it. *)
Theorem create_requires_title :
  forall (params : value) (log : list request),
    title_missing params ->
    (exists msg,
        createPost remote params log
        = (inl (JsError ("Failed to create post: " ++ msg)), log)
        /\ (forall t, get params "title" = inr t -> msg = "Post title is required"))
    /\ (exists msg,
        createPage remote params log
        = (inl (JsError ("Failed to create page: " ++ msg)), log)
        /\ (forall t, get params "title" = inr t -> msg = "Page title is required"))
    /\ (forall args, bag args = params ->
        exists msg,
          handler "create_post" args log
          = (inr (mkEnvelope ("Error: Failed to create post: " ++ msg) true), log)).
Proof.
  intros params log Hm. unfold title_missing in Hm.
  assert (Hpost : exists msg,
             createPost remote params log
             = (inl (JsError ("Failed to create post: " ++ msg)), log)
             /\ (forall t, get params "title" = inr t -> msg = "Post title is required")).
  { unfold createPost. unfold_monad.
    destruct (get params "title") as [e | t] eqn:E.
    - exists (error_text e). split; [reflexivity | intros; discriminate].
    - rewrite Hm. simpl. eexists; split; [reflexivity | reflexivity]. }
  split; [exact Hpost | split].
  - unfold createPage. unfold_monad.
    destruct (get params "title") as [e | t] eqn:E.
    + exists (error_text e). split; [reflexivity | intros; discriminate].
    + rewrite Hm. simpl. eexists; split; [reflexivity | reflexivity].
  - intros args <-. destruct Hpost as [msg [Hpost _]]. exists msg.
    rewrite (callTool_respond (createPost remote (bag args))) by reflexivity.
    rewrite Hpost. reflexivity.
Qed.

(** C7. A [create_post] call with a non-empty title and no status sends one
    POST to [/posts] whose payload has status "draft" (and so not
    "publish"), the title as given, and the empty string for content and
    for excerpt when they are absent. *)
Theorem createPost_defaults_to_draft :
  forall (fs : list (string * value)) (log : list request),
    truthy (field "title" fs) = true ->
    field "status" fs = VUndef ->
    exists payload,
      log_after (createPost remote (VObj fs)) log
      = (log ++ [mkRequest POST "/posts" [] (JsonBody (VObj payload)) []])%list
      /\ log_after (handler "create_post" (Some fs)) log
         = log_after (createPost remote (VObj fs)) log
      /\ field "status" payload = VStr "draft"
      /\ field "status" payload <> VStr "publish"
      /\ field "title" payload = field "title" fs
      /\ (field "content" fs = VUndef -> field "content" payload = VStr EmptyString)
      /\ (field "excerpt" fs = VUndef -> field "excerpt" payload = VStr EmptyString).
Proof.
  intros fs log Ht Hs.
  exists ([("title", field "title" fs);
           ("content", js_or (field "content" fs) (VStr EmptyString));
           ("excerpt", js_or (field "excerpt" fs) (VStr EmptyString));
           ("status", js_or (field "status" fs) (VStr "draft"))]
          ++ spread_if "featured_media" (field "featured_media" fs)
          ++ spread_if "categories" (field "categories" fs)
          ++ spread_if "tags" (field "tags" fs))%list.
  split; [| split].
  - unfold createPost.
    rewrite rethrow_log, !bind_read_obj, Ht. simpl negb. cbv iota.
    rewrite ?bind_read_obj. unfold client_post.
    apply log_send_then. intros. silence.
  - rewrite callTool_log. subst switch. unfold callTool_switch.
    cbn [String.eqb Ascii.eqb Bool.eqb bag]. apply respond_log.
  - rewrite Hs. cbn. repeat split; try discriminate.
    + intros ->. reflexivity.
    + intros ->. reflexivity.
Qed.

(** The projection of update and publish, spelled out. *)
Lemma project_post_success d log v log' :
  project_post d log = (inr v, log') <->
  log' = log
  /\ exists i t r l st,
       get d "id" = inr i /\ get d "title" = inr t /\ get t "rendered" = inr r
       /\ get d "link" = inr l /\ get d "status" = inr st
       /\ v = VObj [("id", i); ("title", r); ("link", l); ("status", st)].
Proof.
  unfold project_post, bind, read, lift, ret. split.
  - destruct (get d "id") as [e | i]; [discriminate |].
    destruct (get d "title") as [e | t]; [discriminate |].
    destruct (get t "rendered") as [e | r] eqn:Er; [discriminate |].
    destruct (get d "link") as [e | l]; [discriminate |].
    destruct (get d "status") as [e | st]; [discriminate |].
    intros H. injection H as <- <-. split; [reflexivity |].
    exists i, t, r, l, st. repeat split. exact Er.
  - intros [-> [i [t [r [l [st [-> [-> [Hr [-> [-> ->]]]]]]]]]]].
    rewrite Hr. reflexivity.
Qed.

(** C8. [publishPost id] and [updatePost id { status: "publish" }] send the
    same single request, a POST to [/posts/<id>] with payload
    [{ status: "publish" }], and return the same projection whenever either
    succeeds: the object of the [id], the rendered title, the [link] and the
    [status] of the response body, which is returned exactly when the remote
    answers with a body these can be read from.  When the request fails they
    throw the same diagnostic under their own prefixes.  The [publish_post]
    and [update_post] tools send the same request likewise and answer the
    same success envelope. *)
Theorem publishPost_is_update_with_publish :
  forall (id : value) (log : list request),
    let publish := publishPost remote id in
    let update := updatePost remote id (VObj [("status", VStr "publish")]) in
    let request :=
      mkRequest POST ("/posts/" ++ to_String id) []
        (JsonBody (VObj [("status", VStr "publish")])) [] in
    log_after publish log = (log ++ [request])%list
    /\ log_after update log = log_after publish log
    /\ (forall v, result_of publish log = inr v <-> result_of update log = inr v)
    /\ (forall e, result_of publish log = inl e ->
          exists m,
            e = JsError (("Failed to publish post " ++ to_String id ++ ": ") ++ m)
            /\ result_of update log
               = inl (JsError (("Failed to update post " ++ to_String id ++ ": ") ++ m)))
    /\ log_after (handler "update_post"
                    (Some [("id", id); ("status", VStr "publish")])) log
       = log_after (handler "publish_post" (Some [("id", id)])) log
    /\ (forall v, result_of publish log = inr v ->
          exists resp i t r l st,
            remote log request = inr resp
            /\ get (data resp) "id" = inr i
            /\ get (data resp) "title" = inr t /\ get t "rendered" = inr r
            /\ get (data resp) "link" = inr l
            /\ get (data resp) "status" = inr st
            /\ v = VObj [("id", i); ("title", r); ("link", l); ("status", st)])
    /\ (forall resp i t r l st,
          remote log request = inr resp ->
          get (data resp) "id" = inr i ->
          get (data resp) "title" = inr t -> get t "rendered" = inr r ->
          get (data resp) "link" = inr l ->
          get (data resp) "status" = inr st ->
          let projection :=
            VObj [("id", i); ("title", r); ("link", l); ("status", st)] in
          result_of publish log = inr projection
          /\ result_of update log = inr projection
          /\ handler "publish_post" (Some [("id", id)]) log
             = (inr (mkEnvelope (JSON_stringify projection) false),
                (log ++ [request])%list)
          /\ handler "update_post"
               (Some [("id", id); ("status", VStr "publish")]) log
             = (inr (mkEnvelope (JSON_stringify projection) false),
                (log ++ [request])%list)).
Proof.
  intros id log publish update request.
  assert (Hu : update =
               rethrow ("Failed to update post " ++ to_String id ++ ": ")
                 (response <- send remote request ;;
                  project_post (data response))) by reflexivity.
  assert (Hp : publish =
               rethrow ("Failed to publish post " ++ to_String id ++ ": ")
                 (response <- send remote request ;;
                  project_post (data response))) by reflexivity.
  assert (Hl : log_after publish log = (log ++ [request])%list).
  { rewrite Hp, rethrow_log.
    apply log_send_then. intros. apply silent_project_post. }
  assert (Hrun : forall resp v,
             remote log request = inr resp ->
             project_post (data resp) (log ++ [request])%list
             = (inr v, (log ++ [request])%list) ->
             publish log = (inr v, (log ++ [request])%list)
             /\ update log = (inr v, (log ++ [request])%list)).
  { intros resp v Hr Hv. rewrite Hp, Hu.
    unfold rethrow, try_catch, throw, bind, send. rewrite Hr, Hv.
    split; reflexivity. }
  split; [exact Hl | split; [| split; [| split; [| split; [| split]]]]].
  - rewrite Hu, Hp. rewrite !rethrow_log. reflexivity.
  - intros v. rewrite Hu, Hp. rewrite !rethrow_result.
    destruct (result_of _ log) as [e | a]; split; intros H; try discriminate; exact H.
  - intros e. rewrite Hu, Hp. rewrite !rethrow_result.
    destruct (result_of _ log) as [e' | a]; intros H; [| discriminate].
    exists (error_text e'). split; [congruence | reflexivity].
  - rewrite !callTool_log. subst switch. unfold callTool_switch.
    cbn [String.eqb Ascii.eqb Bool.eqb bag]. rewrite !respond_log.
    rewrite !bind_read_obj.
    change (field "id" [("id", id); ("status", VStr "publish")]) with id.
    change (field "id" [("id", id)]) with id.
    fold publish. rewrite Hl.
    unfold updatePost. rewrite rethrow_log, !bind_read_obj. unfold client_post.
    apply log_send_then. intros. apply silent_project_post.
  - intros v. rewrite Hp, rethrow_result. unfold result_of, bind, send.
    destruct (remote log request) as [e | resp]; [discriminate |].
    destruct (project_post (data resp) (log ++ [request])%list)
      as [[e | w] l1] eqn:E; simpl; [discriminate |].
    intros H. injection H as ->.
    apply project_post_success in E.
    destruct E as [_ [i [t [r [l [st [Hi [Ht [Hr [Hk [Hs Hv]]]]]]]]]]].
    exists resp, i, t, r, l, st. repeat split; assumption.
  - intros resp i t r l st Hr Hi Ht Hrd Hk Hs projection.
    assert (Hv : project_post (data resp) (log ++ [request])%list
                 = (inr projection, (log ++ [request])%list)).
    { apply project_post_success. split; [reflexivity |].
      exists i, t, r, l, st. repeat split; assumption. }
    destruct (Hrun resp projection Hr Hv) as [Rp Ru].
    split; [unfold result_of; rewrite Rp; reflexivity |].
    split; [unfold result_of; rewrite Ru; reflexivity |].
    split.
    + rewrite (callTool_respond (publishPost remote id)) by reflexivity.
      fold publish. rewrite Rp. reflexivity.
    + rewrite (callTool_respond
                 (updatePost remote id
                    (VObj [("id", id); ("status", VStr "publish")])))
        by reflexivity.
      replace (updatePost remote id (VObj [("id", id); ("status", VStr "publish")]))
        with update by reflexivity.
      rewrite Ru. reflexivity.
Qed.


(** C10. A successful [deleteMedia] returns the message "Media permanently
    deleted" whatever its [force] argument; a successful [deletePost] or
    [deletePage] returns "... permanently deleted" when [force] (false when
    not given) is truthy and "... moved to trash" otherwise, whatever the
    remote answered. *)
Theorem delete_messages :
  forall (id force : value) (log : list request) (v : value),
    (result_of (deleteMedia remote id force) log = inr v ->
       get v "message" = inr (VStr "Media permanently deleted"))
    /\ (result_of (deletePost remote id force) log = inr v ->
       get v "message"
       = inr (VStr (if truthy (default_to (VBool false) force)
                    then "Post permanently deleted" else "Post moved to trash")))
    /\ (result_of (deletePage remote id force) log = inr v ->
       get v "message"
       = inr (VStr (if truthy (default_to (VBool false) force)
                    then "Page permanently deleted" else "Page moved to trash"))).
Proof.
  intros id force log v.
  unfold deleteMedia, deletePost, deletePage.
  rewrite !rethrow_result. unfold_monad.
  repeat split; intros H;
    destruct (remote log _) as [e | resp]; simpl in H; try discriminate;
    destruct (get (data resp) "id") as [e | i]; simpl in H; try discriminate;
    injection H as <-; reflexivity.
Qed.

End Properties.

(** ** The page size, in numbers *)

Lemma page_size_capped : page_size (Some 500%Z) = 100%Z.
Proof. reflexivity. Qed.

Lemma page_size_zero : page_size (Some 0%Z) = 10%Z.
Proof. reflexivity. Qed.

Lemma page_size_negative (n : Z) : (n < 0)%Z -> page_size (Some n) = n.
Proof.
  intros H. unfold page_size.
  destruct (Z.eqb_spec n 0); [lia |]. lia.
Qed.

(** From 1 upwards the page size lies in [1,100], and from 0 upwards it is
    the page size of the specification. *)
Lemma page_size_in_range (n : Z) :
  (1 <= n)%Z -> (1 <= page_size (Some n) <= 100)%Z.
Proof.
  intros H. unfold page_size.
  destruct (Z.eqb_spec n 0); lia.
Qed.

Lemma page_size_agrees_from_zero (n : Z) :
  (0 <= n)%Z -> page_size (Some n) = page_size_spec (Some n).
Proof.
  intros H. unfold page_size, page_size_spec.
  destruct (Z.eqb_spec n 0) as [-> | Hn]; [reflexivity |].
  destruct (Z.leb_spec n 0); [lia | reflexivity].
Qed.

(** ** The program run on concrete calls *)

Import Fixture.

(** [delete_media] with [force: false]: the DELETE goes out with
    [force=false], not [true]. *)
Lemma delete_media_forwards_false :
  log_after (tool site_ok "delete_media"
               (Some [("id", VNum 7); ("force", VBool false)])) []
  = [mkRequest DELETE "/media/7" [("force", VBool false)] NoBody []]
  /\ log_after (deleteMedia site_ok (VNum 7) (VBool false)) []
     = [mkRequest DELETE "/media/7" [("force", VBool false)] NoBody []]
  /\ field "force" [("force", VBool false)] <> VBool true.
Proof. repeat split; try reflexivity. discriminate. Qed.

(** [get_posts] with [per_page: -5]: the request carries [per_page=-5],
    which is neither the default 10 nor inside [1,100]. *)
Lemma negative_per_page_is_sent :
  log_after (getPosts numeric site_ok (VObj [("per_page", VNum (-5))])) []
  = [mkRequest GET "/posts"
       [("per_page", VNum (-5)); ("page", VNum 1); ("status", VStr "publish");
        ("orderby", VStr "date"); ("order", VStr "desc")] NoBody []]
  /\ page_size_spec (Some (-5)%Z) = 10%Z
  /\ VNum (-5) <> VNum (page_size_spec (Some (-5)%Z)).
Proof. repeat split; try reflexivity. discriminate. Qed.

(** [upload_media] with an alt text that is given but empty sends the
    binary upload only; and with an alt text "x" on a site that rejects the
    binary upload, one request is sent, not two. *)
Lemma upload_with_metadata_one_request :
  field "alt_text" (photo_alt EmptyString) <> VUndef
  /\ log_after (uploadMedia buffer_other site_ok (VObj (photo_alt EmptyString))) []
     = [upload_request "photo.jpg" "AAAA"]
  /\ result_of (uploadMedia buffer_other site_ok (VObj (photo_alt EmptyString))) []
     = inr (VObj [("id", VNum 7); ("title", VStr "photo");
                  ("source_url", VStr "https://example.org/photo.jpg");
                  ("media_type", VStr "image"); ("mime_type", VStr "image/jpeg");
                  ("link", VStr "https://example.org/?p=7")])
  /\ field "alt_text" (photo_alt "x") = VStr "x"
  /\ log_after (uploadMedia buffer_other site_down (VObj (photo_alt "x"))) []
     = [upload_request "photo.jpg" "AAAA"].
Proof. repeat split; try reflexivity. discriminate. Qed.

Lemma callTool_never_throws_witness :
  callTool_switch stringify numeric buffer_other site_ok "get_post" (bag None) []
  = (inl (JsError "Cannot read properties of undefined (reading 'id')"), [])
  /\ tool site_ok "get_post" None []
     = (inr (mkEnvelope
               "Error: Cannot read properties of undefined (reading 'id')" true),
        []).
Proof.
  split; [reflexivity |].
  exact (proj1 (proj2 (callTool_never_throws stringify numeric buffer_other
                         site_ok "get_post" None []))
           (JsError "Cannot read properties of undefined (reading 'id')") []
           eq_refl).
Defined.

Lemma callTool_unknown_tool_witness :
  ~ In "nonexistent_tool" dispatch_table
  /\ tool site_ok "nonexistent_tool" (Some []) []
     = (inr (mkEnvelope "Unknown tool: nonexistent_tool" true), []).
Proof.
  assert (H : ~ In "nonexistent_tool" dispatch_table)
    by (simpl; intuition discriminate).
  split; [exact H |].
  exact (callTool_unknown_tool stringify numeric buffer_other site_ok
           "nonexistent_tool" (Some []) [] H).
Defined.

Lemma deleteMedia_force_forwarded_witness :
  VBool false <> VUndef
  /\ default_to (VBool true) (VBool false) = VBool false.
Proof.
  assert (H : VBool false <> VUndef) by discriminate.
  split; [exact H |].
  exact (proj1 (proj2 (proj2
           (deleteMedia_force_forwarded stringify numeric buffer_other site_ok
              (VNum 7) (VBool false) []))) H).
Defined.

Lemma list_operations_page_size_witness :
  exists r,
    log_after (run_list_op numeric site_ok ListPosts
                 (VObj [("per_page", VNum 500)])) [] = [r]
    /\ rq_method r = GET
    /\ field "per_page" (rq_params r) = VNum 100.
Proof.
  apply (list_operations_page_size numeric site_ok ListPosts
           (VObj [("per_page", VNum 500)]) [("per_page", VNum 500)]
           (Some 500%Z) []).
  - reflexivity.
  - reflexivity.
  - discriminate.
Defined.

Lemma uploadMedia_requests_witness :
  supplies_metadata (photo_alt "x") = true
  /\ log_after (uploadMedia buffer_other site_meta_fails (VObj (photo_alt "x"))) []
     = [upload_request "photo.jpg" "AAAA";
        mkRequest POST "/media/7" []
          (JsonBody (VObj [("alt_text", VStr "x")])) []]
  /\ result_of (uploadMedia buffer_other site_meta_fails (VObj (photo_alt "x"))) []
     = inl (JsError "Failed to upload media: Request failed with status code 500").
Proof.
  assert (Hf : "photo.jpg" <> EmptyString) by discriminate.
  assert (Hd : "AAAA" <> EmptyString) by discriminate.
  pose proof (proj2 (uploadMedia_requests stringify numeric buffer_other
                       site_meta_fails (photo_alt "x") "photo.jpg" "AAAA" []
                       eq_refl Hf eq_refl Hd)
                eq_refl (mkResponse resource []) (VNum 7) eq_refl eq_refl)
    as [Hlog Hfail].
  split; [reflexivity |]. split; [exact Hlog |].
  exact (proj1 (Hfail (JsError "Request failed with status code 500") eq_refl)).
Defined.

Lemma create_requires_title_witness :
  title_missing (VObj [])
  /\ exists msg,
       createPost site_ok (VObj []) []
       = (inl (JsError ("Failed to create post: " ++ msg)), [])
       /\ (forall t, get (VObj []) "title" = inr t -> msg = "Post title is required").
Proof.
  assert (H : title_missing (VObj [])) by reflexivity.
  split; [exact H |].
  exact (proj1 (create_requires_title stringify numeric buffer_other site_ok
                  (VObj []) [] H)).
Defined.

Lemma createPost_defaults_to_draft_witness :
  truthy (field "title" [("title", VStr "Hello")]) = true
  /\ field "status" [("title", VStr "Hello")] = VUndef
  /\ exists payload,
       log_after (createPost site_ok (VObj [("title", VStr "Hello")])) []
       = [mkRequest POST "/posts" [] (JsonBody (VObj payload)) []]
       /\ field "status" payload = VStr "draft".
Proof.
  split; [reflexivity |]. split; [reflexivity |].
  destruct (createPost_defaults_to_draft stringify numeric buffer_other site_ok
              [("title", VStr "Hello")] [] eq_refl eq_refl)
    as [payload [Hlog [_ [Hstatus _]]]].
  exists payload. split; [exact Hlog | exact Hstatus].
Defined.

Lemma publishPost_is_update_with_publish_witness :
  site_ok [] (mkRequest POST ("/posts/" ++ to_String (VNum 7)) []
                (JsonBody (VObj [("status", VStr "publish")])) [])
  = inr (mkResponse resource [("x-wp-total", "1"); ("x-wp-totalpages", "1")])
  /\ result_of (publishPost site_ok (VNum 7)) []
     = inr (VObj [("id", VNum 7); ("title", VStr "photo");
                  ("link", VStr "https://example.org/?p=7");
                  ("status", VStr "draft")])
  /\ result_of (updatePost site_ok (VNum 7) (VObj [("status", VStr "publish")])) []
     = inr (VObj [("id", VNum 7); ("title", VStr "photo");
                  ("link", VStr "https://example.org/?p=7");
                  ("status", VStr "draft")])
  /\ result_of (publishPost site_down (VNum 7)) []
     = inl (JsError "Failed to publish post 7: connect ECONNREFUSED")
  /\ exists m,
       JsError "Failed to publish post 7: connect ECONNREFUSED"
       = JsError (("Failed to publish post " ++ to_String (VNum 7) ++ ": ") ++ m)
       /\ result_of (updatePost site_down (VNum 7)
                       (VObj [("status", VStr "publish")])) []
          = inl (JsError (("Failed to update post " ++ to_String (VNum 7) ++ ": ") ++ m)).
Proof.
  split; [reflexivity |].
  pose proof (proj2 (proj2 (proj2 (proj2 (proj2 (proj2
                (publishPost_is_update_with_publish stringify numeric
                   buffer_other site_ok (VNum 7) []))))))
                (mkResponse resource [("x-wp-total", "1"); ("x-wp-totalpages", "1")])
                (VNum 7) (VObj [("rendered", VStr "photo")]) (VStr "photo")
                (VStr "https://example.org/?p=7") (VStr "draft")
                eq_refl eq_refl eq_refl eq_refl eq_refl eq_refl)
    as [Hp [Hu _]].
  split; [exact Hp |]. split; [exact Hu |].
  split; [reflexivity |].
  exact (proj1 (proj2 (proj2 (proj2
           (publishPost_is_update_with_publish stringify numeric buffer_other
              site_down (VNum 7) []))))
           (JsError "Failed to publish post 7: connect ECONNREFUSED") eq_refl).
Defined.


Lemma delete_messages_witness :
  result_of (deleteMedia site_ok (VNum 7) (VBool false)) []
  = inr (VObj [("message", VStr "Media permanently deleted"); ("id", VNum 7)])
  /\ get (VObj [("message", VStr "Media permanently deleted"); ("id", VNum 7)])
       "message"
     = inr (VStr "Media permanently deleted").
Proof.
  split; [reflexivity |].
  exact (proj1 (delete_messages site_ok (VNum 7) (VBool false) []
                  (VObj [("message", VStr "Media permanently deleted");
                         ("id", VNum 7)]))
           eq_refl).
Defined.

(** * Further properties of the adapter and of the dispatcher *)

Section Behaviour.

Variable JSON_stringify : value -> string.
Variable StringToNumber : string -> option Z.
Variable Buffer_from_other : value -> thrown + body.
Variable remote : list request -> request -> thrown + response.

Let handler := callTool JSON_stringify StringToNumber Buffer_from_other remote.
Let switch := callTool_switch JSON_stringify StringToNumber Buffer_from_other remote.

Ltac quiet :=
  repeat first
    [ apply silent_ret | apply silent_throw | apply silent_read
    | apply silent_Buffer_from | apply silent_getMimeType
    | apply silent_project_post | apply silent_project_page
    | apply silent_project_upload
    | apply silent_js_map; intros ?
    | apply silent_project_media_item | apply silent_project_hit
    | apply silent_bind; [| intros ?] ].

(** ** Counting requests *)

Lemma sends_silent {A : Type} (n : nat) (m : M A) :
  silent m -> sends_at_most n m.
Proof.
  intros H log. exists []. rewrite H, app_nil_r. split; [reflexivity | simpl; lia].
Qed.

Lemma sends_bind {A B : Type} (a b : nat) (m : M A) (k : A -> M B) :
  sends_at_most a m -> (forall x, sends_at_most b (k x)) ->
  sends_at_most (a + b) (bind m k).
Proof.
  intros Hm Hk log. destruct (Hm log) as [rs [E L]].
  unfold log_after, bind in *.
  destruct (m log) as [[e | x] log1]; simpl in E; subst log1.
  - exists rs. split; [reflexivity | lia].
  - destruct (Hk x (log ++ rs)%list) as [rs' [E' L']].
    unfold log_after in E'. exists (rs ++ rs')%list.
    rewrite E', app_assoc, length_app. split; [reflexivity | lia].
Qed.

Lemma sends_send (r : request) : sends_at_most 1 (send remote r).
Proof. intros log. exists [r]. split; [reflexivity | simpl; lia]. Qed.

Lemma sends_rethrow {A : Type} (n : nat) (p : string) (m : M A) :
  sends_at_most n m -> sends_at_most n (rethrow p m).
Proof. intros H log. rewrite rethrow_log. apply H. Qed.

Lemma sends_respond (n : nat) (m : M value) :
  sends_at_most n m -> sends_at_most n (respond JSON_stringify m).
Proof. intros H log. rewrite respond_log. apply H. Qed.

Lemma sends_more {A : Type} (n n' : nat) (m : M A) :
  n <= n' -> sends_at_most n m -> sends_at_most n' m.
Proof.
  intros Hn H log. destruct (H log) as [rs [E L]]. exists rs.
  split; [exact E | lia].
Qed.

(** Silent steps, one request, silent steps. *)
Lemma sends_silent_then {A B : Type} (n : nat) (m : M A) (k : A -> M B) :
  silent m -> (forall x, sends_at_most n (k x)) -> sends_at_most n (bind m k).
Proof.
  intros Hm Hk. apply (sends_bind 0 n); [apply sends_silent; exact Hm | exact Hk].
Qed.

Lemma sends_request_then {B : Type} (r : request) (k : response -> M B) :
  (forall x, silent (k x)) -> sends_at_most 1 (bind (send remote r) k).
Proof.
  intros Hk. apply (sends_bind 1 0); [apply sends_send |].
  intros x. apply sends_silent, Hk.
Qed.

Ltac count :=
  repeat first
    [ apply sends_rethrow
    | apply sends_respond
    | apply sends_request_then; intros ?; solve [quiet]
    | apply sends_silent_then; [solve [quiet] | intros ?]
    | match goal with
      | |- sends_at_most _ (if negb (truthy ?t) then _ else _) =>
          destruct (truthy t); simpl negb; cbv iota
      end
    | apply sends_silent; solve [quiet] ].

Lemma sends_getPosts p : sends_at_most 1 (getPosts StringToNumber remote p).
Proof. unfold getPosts, client_get. count. Qed.

Lemma sends_getPost id : sends_at_most 1 (getPost remote id).
Proof. unfold getPost, client_get. count. Qed.

Lemma sends_createPost p : sends_at_most 1 (createPost remote p).
Proof. unfold createPost, client_post. count. Qed.

Lemma sends_updatePost id p : sends_at_most 1 (updatePost remote id p).
Proof. unfold updatePost, client_post. count. Qed.

Lemma sends_deletePost id f : sends_at_most 1 (deletePost remote id f).
Proof. unfold deletePost, client_delete. count. Qed.

Lemma sends_getCategories p : sends_at_most 1 (getCategories StringToNumber remote p).
Proof. unfold getCategories, client_get. count. Qed.

Lemma sends_getTags p : sends_at_most 1 (getTags StringToNumber remote p).
Proof. unfold getTags, client_get. count. Qed.

Lemma sends_publishPost id : sends_at_most 1 (publishPost remote id).
Proof. unfold publishPost, client_post. count. Qed.

Lemma sends_getPages p : sends_at_most 1 (getPages StringToNumber remote p).
Proof. unfold getPages, client_get. count. Qed.

Lemma sends_getPage id : sends_at_most 1 (getPage remote id).
Proof. unfold getPage, client_get. count. Qed.

Lemma sends_createPage p : sends_at_most 1 (createPage remote p).
Proof. unfold createPage, client_post. count. Qed.

Lemma sends_updatePage id p : sends_at_most 1 (updatePage remote id p).
Proof. unfold updatePage, client_post. count. Qed.

Lemma sends_deletePage id f : sends_at_most 1 (deletePage remote id f).
Proof. unfold deletePage, client_delete. count. Qed.

Lemma sends_publishPage id : sends_at_most 1 (publishPage remote id).
Proof. unfold publishPage, client_post. count. Qed.

Lemma sends_getMedia id : sends_at_most 1 (getMedia remote id).
Proof.
  unfold getMedia, client_get. apply sends_rethrow.
  apply sends_request_then. intros x. quiet.
  all: match goal with |- silent (read_opt ?v _) => destruct v; quiet end.
Qed.

Lemma sends_listMedia p : sends_at_most 1 (listMedia StringToNumber remote p).
Proof. unfold listMedia, client_get. count. Qed.

Lemma sends_deleteMedia id f : sends_at_most 1 (deleteMedia remote id f).
Proof. unfold deleteMedia, client_delete. count. Qed.

Lemma sends_getSiteInfo : sends_at_most 1 (getSiteInfo remote).
Proof. unfold getSiteInfo, client_get. count. Qed.

Lemma sends_searchSite p : sends_at_most 1 (searchSite StringToNumber remote p).
Proof. unfold searchSite, client_get. count. Qed.


Lemma sends_uploadMedia p : sends_at_most 2 (uploadMedia Buffer_from_other remote p).
Proof.
  unfold uploadMedia, client_post. apply sends_rethrow.
  apply sends_silent_then; [quiet | intros filename].
  destruct (truthy filename); simpl negb; cbv iota; [| apply sends_silent; quiet].
  apply sends_silent_then; [quiet | intros filedata].
  destruct (truthy filedata); simpl negb; cbv iota; [| apply sends_silent; quiet].
  apply sends_silent_then; [quiet | intros fileBuffer].
  apply sends_silent_then; [quiet | intros mime].
  apply (sends_bind 1 1); [apply sends_send | intros response].
  do 4 (apply sends_silent_then; [quiet | intros ?]).
  apply (sends_bind 1 0); [| intros; apply sends_silent; quiet].
  match goal with |- sends_at_most 1 (match ?l with _ => _ end) => destruct l end.
  - apply sends_silent; quiet.
  - apply sends_silent_then; [quiet | intros id].
    apply sends_request_then. intros. quiet.
Qed.

Ltac branch_bound :=
  first
    [ apply sends_respond;
      first
        [ apply sends_getPosts | apply sends_createPost | apply sends_getCategories
        | apply sends_getTags | apply sends_getSiteInfo | apply sends_searchSite
        | apply sends_listMedia
        | apply sends_silent_then; [quiet | intros ?];
          first [ apply sends_getPost | apply sends_updatePost
                | apply sends_publishPost | apply sends_getMedia
                | apply sends_silent_then; [quiet | intros ?];
                  first [apply sends_deletePost | apply sends_deleteMedia] ] ]
    | apply sends_silent; quiet ].

Lemma switch_sends_one name v :
  name <> "upload_media" -> sends_at_most 1 (switch name v).
Proof.
  intros Hn. subst switch. unfold callTool_switch.
  repeat match goal with
  | |- sends_at_most _ (if ?b then _ else _) =>
      let E := fresh "E" in destruct b eqn:E
  end;
  try branch_bound.
  apply String.eqb_eq in E9. contradiction.
Qed.

Lemma switch_sends_two name v : sends_at_most 2 (switch name v).
Proof.
  destruct (String.eqb_spec name "upload_media") as [-> | Hn].
  - subst switch. unfold callTool_switch. simpl String.eqb. cbv iota.
    apply sends_respond, sends_uploadMedia.
  - apply (sends_more 1 2); [lia | apply switch_sends_one; exact Hn].
Qed.

(** X1. A call of the handler only appends to the request log, and appends
    at most two requests, at most one unless the tool is [upload_media]. *)
Theorem callTool_request_bound :
  forall (name : string) (args : option (list (string * value)))
         (log : list request),
    exists rs,
      log_after (handler name args) log = (log ++ rs)%list
      /\ List.length rs <= 2
      /\ (name <> "upload_media" -> List.length rs <= 1).
Proof.
  intros name args log.
  destruct (switch_sends_two name (bag args) log) as [rs [E L]].
  exists rs. subst handler. rewrite callTool_log. split; [exact E |].
  split; [exact L |]. intros Hn.
  destruct (switch_sends_one name (bag args) Hn log) as [rs' [E' L']].
  fold switch in E. rewrite E in E'. apply app_inv_head in E'. subst rs'. exact L'.
Qed.


(** ** Outcomes of a call *)





(** ** Arguments: routing by id, absent bags, required fields *)



(** X4. Without an argument bag, the list tools and [get_site_info] behave
    as on an empty bag; every tool that takes an [id] answers the failure
    envelope of the [TypeError] of reading [id], and [create_post],
    [search_site] and [upload_media] answer a failure envelope of their
    method; these seven send nothing. *)
Theorem callTool_without_arguments :
  forall (log : list request),
    (forall name,
        In name ["get_posts"; "get_categories"; "get_tags"; "list_media";
                 "get_site_info"] ->
        handler name None log = handler name (Some []) log)
    /\ (forall name route,
        In (name, route) id_routes ->
        handler name None log
        = (inr (mkEnvelope
                  "Error: Cannot read properties of undefined (reading 'id')"
                  true), log))
    /\ handler "create_post" None log
       = (inr (mkEnvelope
                 "Error: Failed to create post: Cannot read properties of undefined (reading 'title')"
                 true), log)
    /\ handler "search_site" None log
       = (inr (mkEnvelope
                 "Error: Failed to search site: Cannot read properties of undefined (reading 'search')"
                 true), log)
    /\ handler "upload_media" None log
       = (inr (mkEnvelope
                 "Error: Failed to upload media: Cannot read properties of undefined (reading 'filename')"
                 true), log).
Proof.
  intros log. subst handler.
  split; [| split; [| split; [| split]]]; try reflexivity.
  - intros name Hin. simpl in Hin.
    repeat (destruct Hin as [<- | Hin]; [reflexivity |]). contradiction.
  - intros name route Hin. simpl in Hin.
    repeat (destruct Hin as [Hin | Hin]; [injection Hin as <- <-; reflexivity |]).
    contradiction.
Qed.




(** X6. Over the same adapter, the dispatcher of the entry point without
    search and media tools answers its nine tools exactly as the full
    dispatcher does, and answers any other name, the five newer tools
    included, with "Unknown tool". *)
Theorem callTool_posts_agrees :
  forall (name : string) (args : option (list (string * value)))
         (log : list request),
    (In name posts_table ->
     callTool_posts JSON_stringify StringToNumber remote name args log
     = handler name args log)
    /\ (~ In name posts_table ->
        callTool_posts JSON_stringify StringToNumber remote name args log
        = (inr (mkEnvelope ("Unknown tool: " ++ name) true), log)).
Proof.
  intros name args log. subst handler. split.
  - intros Hin. simpl in Hin.
    repeat (destruct Hin as [<- | Hin]; [reflexivity |]). contradiction.
  - intros Hn. unfold callTool_posts. apply try_catch_inr.
    unfold callTool_switch_posts.
    repeat match goal with
    | |- context [name =? ?k] =>
        rewrite (eqb_not_in name k posts_table Hn) by (simpl; tauto)
    end.
    reflexivity.
Qed.

(** ** Payloads *)

Lemma in_spread_if k v k' x :
  In (k, v) (spread_if k' x) -> k = k' /\ v = x /\ truthy x = true.
Proof.
  unfold spread_if. destruct (truthy x) eqn:E; simpl; [| contradiction].
  intros [H | []]. injection H as <- <-. repeat split. 
Qed.

Lemma field_spread_if k k' x rest :
  field k (spread_if k' x ++ rest)
  = if (k' =? k) && truthy x then x else field k rest.
Proof.
  unfold spread_if, field. destruct (truthy x); simpl.
  - destruct (k' =? k); reflexivity.
  - rewrite andb_false_r. reflexivity.
Qed.

Lemma field_spread_if_last k k' x :
  field k (spread_if k' x)
  = if (k' =? k) && truthy x then x else VUndef.
Proof.
  rewrite <- (app_nil_r (spread_if k' x)), field_spread_if. reflexivity.
Qed.

(** X7. [updatePost] sends one POST to [/posts/<id>] whose payload holds
    exactly the fields among title, content, excerpt, status,
    featured_media, categories and tags that the caller gave with a truthy
    value, each unchanged; a field given empty, zero or false is left out
    like one not given, and no other key of the argument bag ([id]
    included, which the [update_post] tool passes along) reaches the
    payload. *)
Theorem updatePost_payload :
  forall (id : value) (fs : list (string * value)) (log : list request),
    exists payload,
      log_after (updatePost remote id (VObj fs)) log
      = (log ++ [mkRequest POST ("/posts/" ++ to_String id) []
                   (JsonBody (VObj payload)) []])%list
      /\ log_after (handler "update_post" (Some fs)) log
         = log_after (updatePost remote (field "id" fs) (VObj fs)) log
      /\ (forall k v, In (k, v) payload ->
            In k post_fields /\ v = field k fs /\ truthy v = true)
      /\ (forall k, In k post_fields ->
            field k payload = if truthy (field k fs) then field k fs else VUndef).
Proof.
  intros id fs log.
  exists (spread_if "title" (field "title" fs)
          ++ spread_if "content" (field "content" fs)
          ++ spread_if "excerpt" (field "excerpt" fs)
          ++ spread_if "status" (field "status" fs)
          ++ spread_if "featured_media" (field "featured_media" fs)
          ++ spread_if "categories" (field "categories" fs)
          ++ spread_if "tags" (field "tags" fs))%list.
  split; [| split; [| split]].
  - unfold updatePost. rewrite rethrow_log, !bind_read_obj. unfold client_post.
    apply log_send_then. intros. quiet.
  - subst handler. rewrite callTool_log. unfold callTool_switch.
    simpl String.eqb. cbv iota. cbn [bag].
    rewrite respond_log, bind_read_obj. reflexivity.
  - intros k v H.
    repeat (apply in_app_or in H; destruct H as [H | H]);
      apply in_spread_if in H; destruct H as [-> [-> Ht]];
      (split; [simpl; tauto | split; [reflexivity | exact Ht]]).
  - intros k Hk. simpl in Hk.
    repeat (destruct Hk as [<- | Hk]);
      try contradiction;
      rewrite ?field_spread_if, ?field_spread_if_last; simpl String.eqb;
      simpl andb; cbv iota;
      destruct (truthy _); reflexivity.
Qed.


(** ** Results *)

Lemma rethrow_success {A : Type} (p : string) (m : M A) log v :
  result_of (rethrow p m) log = inr v <-> result_of m log = inr v.
Proof.
  rewrite rethrow_result. destruct (result_of m log); split; intros H;
    try discriminate; exact H.
Qed.

Lemma send_then_success {B : Type} (r : request) (k : response -> M B) log v :
  result_of (bind (send remote r) k) log = inr v <->
  exists resp, remote log r = inr resp
               /\ result_of (k resp) (log ++ [r])%list = inr v.
Proof.
  unfold result_of, bind, send.
  destruct (remote log r) as [e | resp]; simpl; split.
  - discriminate.
  - intros [resp [H _]]. discriminate.
  - intros H. exists resp. split; [reflexivity | exact H].
  - intros [resp' [H1 H2]]. injection H1 as <-. exact H2.
Qed.

(** The two page projections on the same body. *)
Lemma project_page_extends d log :
  (exists e, project_post d log = (inl e, log)
             /\ project_page d log = (inl e, log))
  \/ (exists fields parent,
         project_post d log = (inr (VObj fields), log)
         /\ get d "parent" = inr parent
         /\ project_page d log
            = (inr (VObj (fields ++ [("parent", parent)])), log)).
Proof.
  unfold project_post, project_page, bind, read, lift, ret.
  destruct (get d "id") as [e | i] eqn:Ei; [left; eauto |].
  destruct (get d "title") as [e | t]; [left; eauto |].
  destruct (get t "rendered") as [e | r]; [left; eauto |].
  destruct (get d "link") as [e | l]; [left; eauto |].
  destruct (get d "status") as [e | st]; [left; eauto |].
  destruct (get d "parent") as [e | pa] eqn:Ep.
  - destruct d; simpl in Ei, Ep; discriminate.
  - right. exists [("id", i); ("title", r); ("link", l); ("status", st)], pa.
    repeat split.
Qed.

(** X8. [publishPage id] and [updatePage id { status: "publish" }] send the
    same single POST to [/pages/<id>], and one succeeds exactly when the
    other does; but the result of the update carries the [parent] of the
    page after the fields id, title, link and status, and the result of the
    publish does not. *)
Theorem publishPage_result_lacks_parent :
  forall (id : value) (log : list request),
    let publish := publishPage remote id in
    let update := updatePage remote id (VObj [("status", VStr "publish")]) in
    log_after publish log
    = (log ++ [mkRequest POST ("/pages/" ++ to_String id) []
                 (JsonBody (VObj [("status", VStr "publish")])) []])%list
    /\ log_after update log = log_after publish log
    /\ (forall v, result_of publish log = inr v ->
          exists fields parent,
            v = VObj fields /\ get v "parent" = inr VUndef
            /\ result_of update log = inr (VObj (fields ++ [("parent", parent)])))
    /\ (forall v, result_of update log = inr v ->
          exists v', result_of publish log = inr v').
Proof.
  intros id log publish update.
  set (r := mkRequest POST ("/pages/" ++ to_String id) []
              (JsonBody (VObj [("status", VStr "publish")])) []).
  assert (Hp : publish =
               rethrow ("Failed to publish page " ++ to_String id ++ ": ")
                 (response <- send remote r ;; project_post (data response)))
    by reflexivity.
  assert (Hu : update =
               rethrow ("Failed to update page " ++ to_String id ++ ": ")
                 (response <- send remote r ;; project_page (data response)))
    by reflexivity.
  rewrite Hp, Hu. clear Hp Hu publish update.
  split; [| split; [| split]].
  - rewrite rethrow_log. apply log_send_then. intros. quiet.
  - rewrite !rethrow_log.
    rewrite (log_send_then remote r (fun x => project_post (data x)))
      by (intros; quiet).
    apply log_send_then. intros. quiet.
  - intros v H. apply rethrow_success, send_then_success in H.
    destruct H as [resp [Hr H]]. unfold result_of in H.
    destruct (project_page_extends (data resp) (log ++ [r])%list)
      as [[e [E1 E2]] | [fields [parent [E1 [Ep E2]]]]];
      rewrite E1 in H; simpl in H; [discriminate |]. injection H as <-.
    exists fields, parent. split; [reflexivity |]. split.
    + unfold project_post, bind, read, lift, ret in E1.
      destruct (get (data resp) "id"); [discriminate |].
      destruct (get (data resp) "title") as [? | t]; [discriminate |].
      destruct (get t "rendered"); [discriminate |].
      destruct (get (data resp) "link"); [discriminate |].
      destruct (get (data resp) "status"); [discriminate |].
      injection E1 as <-. reflexivity.
    + apply rethrow_success, send_then_success. exists resp.
      split; [exact Hr |]. unfold result_of. rewrite E2. reflexivity.
  - intros v H. apply rethrow_success, send_then_success in H.
    destruct H as [resp [Hr H]]. unfold result_of in H.
    destruct (project_page_extends (data resp) (log ++ [r])%list)
      as [[e [E1 E2]] | [fields [parent [E1 [Ep E2]]]]];
      rewrite E2 in H; simpl in H; [discriminate |].
    exists (VObj fields). apply rethrow_success, send_then_success.
    exists resp. split; [exact Hr |]. unfold result_of. rewrite E1. reflexivity.
Qed.


Lemma field_spread_defined k k' x rest :
  field k (spread_defined k' x ++ rest)
  = if (k' =? k) then match x with VUndef => field k rest | _ => x end
    else field k rest.
Proof.
  unfold spread_defined, field. destruct x; simpl;
    destruct (k' =? k); reflexivity.
Qed.

(** X9. The page methods pass [parent] on whenever the caller gave it, also
    when it is 0 or null: [createPage] and [updatePage] in the payload,
    [getPages] in the query; a [featured_media] of 0 is left out of the same
    payloads. *)
Theorem pages_forward_parent :
  forall (id : value) (fs : list (string * value)) (log : list request),
    (truthy (field "title" fs) = true ->
     exists payload,
       log_after (createPage remote (VObj fs)) log
       = (log ++ [mkRequest POST "/pages" [] (JsonBody (VObj payload)) []])%list
       /\ field "parent" payload = field "parent" fs
       /\ (truthy (field "featured_media" fs) = false ->
           field "featured_media" payload = VUndef))
    /\ (exists payload,
       log_after (updatePage remote id (VObj fs)) log
       = (log ++ [mkRequest POST ("/pages/" ++ to_String id) []
                    (JsonBody (VObj payload)) []])%list
       /\ field "parent" payload = field "parent" fs
       /\ (truthy (field "featured_media" fs) = false ->
           field "featured_media" payload = VUndef))
    /\ (exists query,
       log_after (getPages StringToNumber remote (VObj fs)) log
       = (log ++ [mkRequest GET "/pages" query NoBody []])%list
       /\ field "parent" query = field "parent" fs).
Proof.
  intros id fs log. split; [| split].
  - intros Ht. unfold createPage.
    rewrite rethrow_log, !bind_read_obj, Ht. simpl negb. cbv iota.
    rewrite ?bind_read_obj. unfold client_post.
    eexists. split; [apply log_send_then; intros; quiet |].
    split.
    + cbn [app]. unfold field at 1. cbn [assoc String.eqb Ascii.eqb Bool.eqb].
      fold (field "parent" (spread_if "featured_media" (field "featured_media" fs)
                            ++ spread_defined "parent" (field "parent" fs))).
      rewrite field_spread_if. simpl String.eqb. simpl andb. cbv iota.
      rewrite <- (app_nil_r (spread_defined _ _)), field_spread_defined.
      simpl String.eqb. cbv iota. destruct (field "parent" fs); reflexivity.
    + intros Hf. cbn [app]. unfold field at 1.
      cbn [assoc String.eqb Ascii.eqb Bool.eqb].
      fold (field "featured_media"
              (spread_if "featured_media" (field "featured_media" fs)
               ++ spread_defined "parent" (field "parent" fs))).
      rewrite field_spread_if, Hf, andb_false_r.
      rewrite <- (app_nil_r (spread_defined _ _)), field_spread_defined.
      reflexivity.
  - unfold updatePage. rewrite rethrow_log, !bind_read_obj. unfold client_post.
    eexists. split; [apply log_send_then; intros; quiet |].
    split.
    + rewrite !field_spread_if. simpl String.eqb. simpl andb. cbv iota.
      rewrite <- (app_nil_r (spread_defined _ _)), field_spread_defined.
      simpl String.eqb. cbv iota. destruct (field "parent" fs); reflexivity.
    + intros Hf. rewrite !field_spread_if, Hf. simpl String.eqb. simpl andb.
      cbv iota.
      rewrite <- (app_nil_r (spread_defined _ _)), field_spread_defined.
      reflexivity.
  - unfold getPages. cbn [default_to]. rewrite rethrow_log, !bind_read_obj.
    unfold client_get.
    eexists. split; [apply log_send_then; intros; quiet |].
    cbn [app]. unfold field at 1. cbn [assoc String.eqb Ascii.eqb Bool.eqb].
    fold (field "parent" (spread_if "search" (field "search" fs)
                          ++ spread_defined "parent" (field "parent" fs))).
    rewrite field_spread_if. simpl String.eqb. simpl andb. cbv iota.
    rewrite <- (app_nil_r (spread_defined _ _)), field_spread_defined.
    simpl String.eqb. cbv iota. destruct (field "parent" fs); reflexivity.
Qed.


(** X10. [getMedia] needs the title of the body and nothing else: on a body
    that is an object whose [title] is an object, it succeeds with the
    rendered title, and a [caption] or [description] that is missing or null
    comes out as [undefined]; on an object body without [title] it fails with
    the [TypeError] of reading [rendered] under "Failed to fetch media <id>: ". *)
Theorem getMedia_optional_fields :
  forall (id : value) (log : list request) (resp : response)
         (fs : list (string * value)),
    remote log (mkRequest GET ("/media/" ++ to_String id) [] NoBody []) = inr resp ->
    data resp = VObj fs ->
    (forall tf, field "title" fs = VObj tf ->
       exists v,
         result_of (getMedia remote id) log = inr v
         /\ get v "title" = inr (field "rendered" tf)
         /\ get v "id" = inr (field "id" fs)
         /\ (field "caption" fs = VUndef \/ field "caption" fs = VNull ->
             get v "caption" = inr VUndef)
         /\ (field "description" fs = VUndef \/ field "description" fs = VNull ->
             get v "description" = inr VUndef))
    /\ (field "title" fs = VUndef ->
        result_of (getMedia remote id) log
        = inl (JsError (("Failed to fetch media " ++ to_String id ++ ": ")
                        ++ "Cannot read properties of undefined (reading 'rendered')"))).
Proof.
  intros id log resp fs Hr Hd. split.
  - intros tf Ht. unfold getMedia, result_of, rethrow, try_catch, client_get.
    unfold bind at 1. unfold send. rewrite Hr. cbv beta iota. rewrite Hd.
    cbv beta iota delta [bind read lift ret get read_opt fst].
    rewrite Ht. cbv beta iota.
    destruct (field "caption" fs) eqn:Ec; destruct (field "description" fs) eqn:Ed;
      cbv beta iota;
      eexists; (split; [reflexivity |]);
      (split; [reflexivity |]); (split; [reflexivity |]);
      (split; [try reflexivity; intros [C | C]; discriminate C
              | try reflexivity; intros [C | C]; discriminate C]).
  - intros Ht. unfold getMedia, result_of, rethrow, try_catch, client_get.
    unfold bind at 1. unfold send. rewrite Hr. cbv beta iota. rewrite Hd.
    cbv beta iota delta [bind read lift ret get read_opt fst].
    rewrite Ht. reflexivity.
Qed.


(** ** Lists: pagination and projection of the items *)

Lemma mapM_length {A B : Type} (f : A -> M B) (l : list A) log ys log' :
  mapM f l log = (inr ys, log') -> List.length ys = List.length l.
Proof.
  revert log ys log'. induction l as [| x rest IH]; intros log ys log' H.
  - injection H as <- _. reflexivity.
  - simpl in H. unfold bind at 1 in H.
    destruct (f x log) as [[e | y] l1]; [discriminate |].
    unfold bind at 1 in H.
    destruct (mapM f rest l1) as [[e | ys'] l2] eqn:E; [discriminate |].
    injection H as <- _. simpl. f_equal. exact (IH _ _ _ E).
Qed.

Lemma js_map_success owner v f log w log' :
  js_map owner v f log = (inr w, log') ->
  exists items outs,
    v = VArr items /\ w = VArr outs /\ List.length outs = List.length items.
Proof.
  destruct v; simpl; try discriminate.
  unfold bind at 1. destruct (mapM f items log) as [[e | ys] l1] eqn:E;
    [discriminate |].
  intros H. injection H as <- _. exists items, ys.
  split; [reflexivity | split; [reflexivity | exact (mapM_length _ _ _ _ _ E)]].
Qed.

(** X11. When a paged list operation (posts, pages, media, search) succeeds,
    [total] and [totalPages] of its result are the headers [x-wp-total] and
    [x-wp-totalpages] of the response, [undefined] when the response has no
    such header, and [currentPage] is the [page] parameter that was sent: the
    caller's [page], or 1 when that is absent or zero. *)
Theorem paged_results_metadata :
  forall (op : list_op) (params : value) (fs : list (string * value))
         (log : list request) (v : value),
    op <> ListCategories -> op <> ListTags ->
    default_to (VObj []) params = VObj fs ->
    (op = SearchSite -> params = VObj fs) ->
    result_of (run_list_op StringToNumber remote op params) log = inr v ->
    exists r resp,
      log_after (run_list_op StringToNumber remote op params) log
      = (log ++ [r])%list
      /\ remote log r = inr resp
      /\ get v "total" = inr (header resp "x-wp-total")
      /\ get v "totalPages" = inr (header resp "x-wp-totalpages")
      /\ (assoc "x-wp-total" (headers resp) = None -> get v "total" = inr VUndef)
      /\ get v "currentPage" = inr (field "page" (rq_params r))
      /\ field "page" (rq_params r) = js_or (field "page" fs) (VNum 1).
Proof.
  intros op params fs log v Hc Ht Hp Hs H.
  destruct op; try contradiction; simpl in *;
    [ unfold getPosts in * | unfold getPages in * | unfold listMedia in *
    | unfold searchSite in *; rewrite (Hs eq_refl) in * ];
    try rewrite Hp in *;
    rewrite rethrow_log; apply rethrow_success in H;
    rewrite !bind_read_obj in *;
    try (destruct (truthy (field "search" fs)); simpl negb in *; cbv iota in *;
         [| discriminate H]; rewrite ?bind_read_obj in * );
    unfold client_get in *;
    apply send_then_success in H; destruct H as [resp [Hr H]];
    eexists; exists resp;
    (split; [apply log_send_then; intros; quiet |]);
    (split; [exact Hr |]);
    unfold result_of in H;
    try (unfold bind at 1 in H;
         match type of H with
         | context [js_map ?o ?d ?f ?l] =>
             destruct (js_map o d f l) as [[e | w] l1]; [discriminate H |]
         end);
    injection H as <-;
    (split; [reflexivity |]); (split; [reflexivity |]);
    (split; [intros Hh; unfold header; cbn [get field assoc String.eqb Ascii.eqb Bool.eqb];
             unfold header; rewrite Hh; reflexivity |]);
    split; reflexivity.
Qed.


(** X12. [listMedia] and [searchSite] project the response item by item:
    when they succeed the response body was an array and the list they
    return ([media], [results]) has one entry for each of its items; when
    the body is an object instead of an array they fail, after their one
    request, with "response.data.map is not a function". *)
Theorem list_items_projected :
  forall (op : list_op) (params : value) (fs : list (string * value))
         (log : list request),
    op = ListMedia \/ op = SearchSite ->
    default_to (VObj []) params = VObj fs ->
    (op = SearchSite -> params = VObj fs /\ truthy (field "search" fs) = true) ->
    let call := run_list_op StringToNumber remote op params in
    let key := match op with ListMedia => "media" | _ => "results" end in
    let prefix := match op with
                  | ListMedia => "Failed to list media: "
                  | _ => "Failed to search site: "
                  end in
    exists r,
      log_after call log = (log ++ [r])%list
      /\ (forall v, result_of call log = inr v ->
            exists resp items outs,
              remote log r = inr resp /\ data resp = VArr items
              /\ get v key = inr (VArr outs)
              /\ List.length outs = List.length items)
      /\ (forall resp o, remote log r = inr resp -> data resp = VObj o ->
            result_of call log
            = inl (JsError (prefix ++ "response.data.map is not a function"))).
Proof.
  intros op params fs log Hop Hp Hs call key prefix. subst call key prefix.
  destruct Hop as [-> | ->]; simpl;
    [ unfold listMedia | unfold searchSite; destruct (Hs eq_refl) as [-> Hsearch] ];
    try rewrite Hp; rewrite !bind_read_obj;
    try (rewrite Hsearch; simpl negb; cbv iota; rewrite ?bind_read_obj);
    unfold client_get;
    eexists; (split; [rewrite rethrow_log; apply log_send_then; intros; quiet |]);
    split.
  all: try (intros v H; apply rethrow_success, send_then_success in H;
            destruct H as [resp [Hr H]]; unfold result_of in H;
            unfold bind at 1 in H;
            match type of H with
            | context [js_map ?o ?d ?f ?l] =>
                destruct (js_map o d f l) as [[e | w] l1] eqn:E; [discriminate H |]
            end;
            destruct (js_map_success _ _ _ _ _ _ E) as [items [outs [Hd [-> Hl]]]];
            injection H as <-;
            exists resp, items, outs;
            split; [exact Hr | split; [exact Hd | split; [reflexivity | exact Hl]]]).
  all: intros resp o Hr Hd;
       unfold result_of, rethrow, try_catch, throw; unfold bind at 1; unfold send;
       rewrite Hr; cbv beta iota; rewrite Hd; reflexivity.
Qed.


Lemma truthy_js_or a d : truthy d = true -> truthy (js_or a d) = true.
Proof. intros H. unfold js_or. destruct (truthy a) eqn:E; [exact E | exact H]. Qed.

Lemma truthy_page_size requested : truthy (VNum (page_size requested)) = true.
Proof.
  destruct requested as [n |]; simpl; [| reflexivity].
  destruct (Z.eqb_spec n 0); [reflexivity |].
  destruct (Z.eqb_spec (Z.min n 100) 0); [lia | reflexivity].
Qed.

Lemma in_spread_defined k v k' x :
  In (k, v) (spread_defined k' x) -> k = k'.
Proof.
  unfold spread_defined. destruct x; simpl; try contradiction;
    intros [H | []]; injection H as <- _; reflexivity.
Qed.

(** X13. No list operation sends an empty query parameter: in the request
    of a list operation called with a numeric or absent [per_page], every
    query parameter other than the [parent] of [getPages] has a truthy
    value; what the caller left out or gave empty is defaulted or omitted. *)
Theorem list_operations_send_no_empty_parameter :
  forall (op : list_op) (params : value) (fs : list (string * value))
         (requested : option Z) (log : list request),
    default_to (VObj []) params = VObj fs ->
    field "per_page" fs = per_page_arg requested ->
    (op = SearchSite -> params = VObj fs /\ truthy (field "search" fs) = true) ->
    exists r,
      log_after (run_list_op StringToNumber remote op params) log
      = (log ++ [r])%list
      /\ forall k v, In (k, v) (rq_params r) -> k <> "parent" -> truthy v = true.
Proof.
  intros op params fs requested log Hp Hpp Hs.
  destruct op; simpl;
    [ unfold getPosts | unfold getPages | unfold getCategories | unfold getTags
    | unfold listMedia
    | unfold searchSite; destruct (Hs eq_refl) as [-> Hsearch] ];
    try rewrite Hp; rewrite rethrow_log, !bind_read_obj;
    try (rewrite Hsearch; simpl negb; cbv iota; rewrite ?bind_read_obj);
    rewrite Hpp, page_size_sent; unfold client_get;
    eexists; (split; [apply log_send_then; intros; quiet |]);
    cbn [rq_params]; intros k v H Hk;
    repeat (apply in_app_or in H; destruct H as [H | H]);
    try (apply in_spread_if in H; destruct H as [_ [-> Ht]]; exact Ht);
    try (apply in_spread_defined in H; contradiction);
    simpl in H;
    repeat (destruct H as [H | H]; [injection H as <- <- |]);
    try contradiction;
    first [ apply truthy_page_size | apply truthy_js_or; reflexivity | exact Hsearch ].
Qed.

(** X14. [deletePost] forwards [force] as given and defaults it to [false]:
    a [delete_post] call without [force] sends [force=false], so the post is
    trashed, not destroyed, and a successful answer says "Post moved to
    trash". *)
Theorem delete_post_trashes_by_default :
  forall (id force : value) (fs : list (string * value)) (log : list request),
    log_after (deletePost remote id force) log
    = (log ++ [mkRequest DELETE ("/posts/" ++ to_String id)
                 [("force", default_to (VBool false) force)] NoBody []])%list
    /\ (field "force" fs = VUndef ->
        log_after (handler "delete_post" (Some fs)) log
        = (log ++ [mkRequest DELETE ("/posts/" ++ to_String (field "id" fs))
                     [("force", VBool false)] NoBody []])%list
        /\ forall env log',
             handler "delete_post" (Some fs) log = (inr env, log') ->
             isError env = false ->
             exists id',
               text env
               = JSON_stringify (VObj [("message", VStr "Post moved to trash");
                                       ("id", id')])).
Proof.
  intros id force fs log. split.
  - unfold deletePost. rewrite rethrow_log. unfold client_delete.
    apply log_send_then. intros. quiet.
  - intros Hf. subst handler. split.
    + rewrite callTool_log. unfold callTool_switch. simpl String.eqb. cbv iota.
      cbn [bag]. rewrite respond_log, !bind_read_obj, Hf.
      unfold deletePost. rewrite rethrow_log. unfold client_delete.
      apply log_send_then. intros. quiet.
    + intros env log' H He.
      rewrite (callTool_respond JSON_stringify StringToNumber Buffer_from_other
                 remote (deletePost remote (field "id" fs) (field "force" fs)))
        in H by reflexivity.
      rewrite Hf in H. unfold deletePost, rethrow, try_catch, throw in H.
      cbn [default_to truthy] in H. unfold bind, client_delete, send, read, lift, ret in H.
      destruct (remote log _) as [e | resp]; [injection H as <- _; discriminate He |].
      destruct (get (data resp) "id") as [e | id'];
        [injection H as <- _; discriminate He |].
      injection H as <- _. exists id'. reflexivity.
Qed.

(** X16. [getPost] and [getPage] do not project: they succeed exactly when
    the remote answers their one GET, whatever the body is, and return that
    body unchanged; when the remote rejects, they fail with its diagnostic
    under "Failed to fetch post <id>: " or "Failed to fetch page <id>: ". *)
Theorem single_fetch_returns_body :
  forall (id : value) (log : list request),
    let post := mkRequest GET ("/posts/" ++ to_String id) [] NoBody [] in
    let page := mkRequest GET ("/pages/" ++ to_String id) [] NoBody [] in
    getPost remote id log
    = (match remote log post with
       | inr resp => inr (data resp)
       | inl e => inl (JsError (("Failed to fetch post " ++ to_String id ++ ": ")
                                ++ error_text e))
       end, (log ++ [post])%list)
    /\ getPage remote id log
       = (match remote log page with
          | inr resp => inr (data resp)
          | inl e => inl (JsError (("Failed to fetch page " ++ to_String id ++ ": ")
                                   ++ error_text e))
          end, (log ++ [page])%list)
    /\ (forall resp, remote log post = inr resp ->
          handler "get_post" (Some [("id", id)]) log
          = (inr (mkEnvelope (JSON_stringify (data resp)) false),
             (log ++ [post])%list)).
Proof.
  intros id log post page. split; [| split].
  - unfold getPost, rethrow, try_catch, throw, client_get, bind, send, ret.
    fold post. destruct (remote log post); reflexivity.
  - unfold getPage, rethrow, try_catch, throw, client_get, bind, send, ret.
    fold page. destruct (remote log page); reflexivity.
  - intros resp Hr. subst handler.
    rewrite (callTool_respond JSON_stringify StringToNumber Buffer_from_other
               remote (getPost remote id)) by reflexivity.
    unfold getPost, rethrow, try_catch, throw, client_get, bind, send, ret.
    fold post. rewrite Hr. reflexivity.
Qed.

(** ** The file type of an upload *)

Lemma last_segment_no_dot (e acc : string) :
  has_dot e = false -> last_segment e acc = acc ++ e.
Proof.
  revert acc. induction e as [| c e IH]; intros acc H; simpl.
  - induction acc as [| a acc IHa]; simpl; [reflexivity | f_equal; exact IHa].
  - simpl in H. apply orb_false_elim in H. destruct H as [Hc He].
    rewrite Hc, (IH _ He).
    clear. induction acc as [| a acc IHa]; simpl; [reflexivity | f_equal; exact IHa].
Qed.

Lemma last_segment_after_dot (name e acc : string) :
  last_segment (name ++ "." ++ e) acc = last_segment e EmptyString.
Proof.
  revert acc. induction name as [| c name IH]; intros acc; simpl.
  - reflexivity.
  - destruct (Ascii.eqb c "."); apply IH.
Qed.

Lemma toLowerCase_idempotent (s : string) :
  toLowerCase (toLowerCase s) = toLowerCase s.
Proof.
  induction s as [| c e IH]; simpl; [reflexivity |].
  f_equal; [| exact IH].
  unfold lower_ascii.
  destruct (Nat.leb 65 (nat_of_ascii c) && Nat.leb (nat_of_ascii c) 90) eqn:E;
    [| rewrite E; reflexivity].
  apply andb_prop in E. destruct E as [E1 E2].
  apply Nat.leb_le in E1. apply Nat.leb_le in E2.
  rewrite nat_ascii_embedding by lia.
  destruct (Nat.leb 65 (nat_of_ascii c + 32) && Nat.leb (nat_of_ascii c + 32) 90) eqn:E';
    [| reflexivity].
  apply andb_prop in E'. destruct E' as [_ E']. apply Nat.leb_le in E'. lia.
Qed.

(** X15. What [getMimeType] returns depends only on what follows the last
    dot of the file name, compared without regard to case: for a name ending
    in ".<ext>" with no dot in [ext], and for a name [ext] without any dot,
    it is what the table answers to the lower-cased [ext]: its own entry when
    it has one; "application/octet-stream" when it has none and the
    lower-cased [ext] is neither "constructor" nor "__proto__"; and for these
    two the property the table inherits, the function [Object] and
    [Object.prototype], not a content type. *)
Theorem getMimeType_by_extension :
  forall (name ext : string) (log : list request),
    has_dot ext = false ->
    getMimeType (VStr (name ++ "." ++ ext)) log = (inr (mime_of_extension ext), log)
    /\ getMimeType (VStr ext) log = (inr (mime_of_extension ext), log)
    /\ mime_of_extension (toLowerCase ext) = mime_of_extension ext
    /\ (forall m, assoc (toLowerCase ext) mimeTypes = Some m ->
          mime_of_extension ext = MimeType m)
    /\ (assoc (toLowerCase ext) mimeTypes = None ->
        toLowerCase ext <> "constructor" -> toLowerCase ext <> "__proto__" ->
        mime_of_extension ext = MimeType "application/octet-stream")
    /\ (toLowerCase ext = "constructor" -> mime_of_extension ext = ObjectConstructor)
    /\ (toLowerCase ext = "__proto__" -> mime_of_extension ext = ObjectPrototype).
Proof.
  intros name ext log H. unfold getMimeType, ret, mime_of_extension.
  rewrite last_segment_after_dot, (last_segment_no_dot ext EmptyString H).
  simpl append. rewrite toLowerCase_idempotent.
  split; [reflexivity |]. split; [reflexivity |]. split; [reflexivity |].
  unfold mime_lookup. split; [| split; [| split]].
  - intros m ->. reflexivity.
  - intros -> Hc Hp.
    destruct (String.eqb_spec (toLowerCase ext) "constructor"); [contradiction |].
    destruct (String.eqb_spec (toLowerCase ext) "__proto__"); [contradiction |].
    reflexivity.
  - intros ->. reflexivity.
  - intros ->. reflexivity.
Qed.

(** X19. The binary upload of [uploadMedia] for a file name "<name>.<ext>"
    carries as its [Content-Type] the text of what the table answers to
    [ext] (the content type of [ext], "application/octet-stream" for an
    extension it does not know, and the text of the inherited property for
    "constructor" and "__proto__"), the header
    [Content-Disposition: attachment; filename="<name>.<ext>"] with the file
    name as given, and the decoded data as its body. *)
Theorem uploadMedia_upload_headers :
  forall (fs : list (string * value)) (name ext d : string)
         (log : list request),
    field "filename" fs = VStr (name ++ "." ++ ext) ->
    has_dot ext = false ->
    field "data" fs = VStr d -> d <> EmptyString ->
    exists r rest,
      log_after (uploadMedia Buffer_from_other remote (VObj fs)) log
      = (log ++ r :: rest)%list
      /\ rq_method r = POST /\ rq_url r = "/media"
      /\ rq_body r = BufferBase64 d
      /\ rq_headers r
         = [("Content-Type", mime_String (mime_of_extension ext));
            ("Content-Disposition",
             "attachment; filename=" ++ dquote ++ (name ++ "." ++ ext) ++ dquote)]
      /\ (forall m, assoc (toLowerCase ext) mimeTypes = Some m ->
            mime_String (mime_of_extension ext) = m)
      /\ (toLowerCase ext = "constructor" ->
            mime_String (mime_of_extension ext)
            = "function Object() { [native code] }").
Proof.
  intros fs name ext d log Hf Hx Hd Hdne.
  assert (Hfne : name ++ "." ++ ext <> EmptyString).
  { destruct name; simpl; discriminate. }
  rewrite (uploadMedia_valid Buffer_from_other remote fs _ d Hf Hfne Hd Hdne).
  rewrite rethrow_log.
  set (r := upload_request (name ++ "." ++ ext) d).
  assert (Hrest : forall response,
             sends_at_most 1
               (_ <- match metaUpdates_of fs with
                     | [] => ret tt
                     | _ =>
                         id <- read (data response) "id" ;;
                         _ <- client_post remote ("/media/" ++ to_String id)
                                (JsonBody (VObj (metaUpdates_of fs))) [] ;;
                         ret tt
                     end ;;
                project_upload (data response))).
  { intros response.
    apply (sends_bind 1 0); [| intros; apply sends_silent; quiet].
    destruct (metaUpdates_of fs).
    - apply sends_silent; quiet.
    - apply sends_silent_then; [quiet | intros id].
      unfold client_post. apply sends_request_then. intros. quiet. }
  assert (Hh : rq_headers r
               = [("Content-Type", mime_String (mime_of_extension ext));
                  ("Content-Disposition",
                   "attachment; filename=" ++ dquote ++ (name ++ "." ++ ext)
                   ++ dquote)]).
  { unfold r, upload_request, mime_of_extension. cbn [rq_headers].
    rewrite last_segment_after_dot, (last_segment_no_dot ext EmptyString Hx).
    reflexivity. }
  assert (Hown : forall m, assoc (toLowerCase ext) mimeTypes = Some m ->
                           mime_String (mime_of_extension ext) = m).
  { intros m Hm. unfold mime_of_extension, mime_lookup. rewrite Hm. reflexivity. }
  assert (Hctor : toLowerCase ext = "constructor" ->
                  mime_String (mime_of_extension ext)
                  = "function Object() { [native code] }").
  { intros Hc. unfold mime_of_extension. rewrite Hc. reflexivity. }
  exists r.
  unfold log_after, bind at 1, send.
  destruct (remote log r) as [e | resp].
  - exists []. split; [reflexivity |]. split; [reflexivity |].
    split; [reflexivity |]. split; [reflexivity |].
    split; [exact Hh | split; [exact Hown | exact Hctor]].
  - destruct (Hrest resp (log ++ [r])%list) as [rs [E _]].
    unfold log_after in E. exists rs. rewrite E, <- app_assoc.
    split; [reflexivity |]. split; [reflexivity |].
    split; [reflexivity |]. split; [reflexivity |].
    split; [exact Hh | split; [exact Hown | exact Hctor]].
Qed.

End Behaviour.

(** ** Start-up *)

Lemma check_env_none (env : environment) (vars : list string) :
  check_env env vars = None <->
  forall v, In v vars -> env_missing env v = false.
Proof.
  induction vars as [| x rest IH]; simpl.
  - split; [intros _ v [] | reflexivity].
  - destruct (env_missing env x) eqn:E.
    + split; [discriminate |]. intros H. rewrite (H x) in E; [discriminate | tauto].
    + rewrite IH. split.
      * intros H v [<- | Hv]; [exact E | exact (H v Hv)].
      * intros H v Hv. apply H. tauto.
Qed.

Lemma check_env_first (env : environment) (vars : list string) (e : thrown) :
  check_env env vars = Some e ->
  exists before v after,
    vars = (before ++ v :: after)%list
    /\ e = JsError ("Missing required environment variable: " ++ v)
    /\ env_missing env v = true
    /\ forall u, In u before -> env_missing env u = false.
Proof.
  induction vars as [| x rest IH]; simpl; [discriminate |].
  destruct (env_missing env x) eqn:E.
  - intros H. injection H as <-. exists [], x, rest.
    split; [reflexivity | split; [reflexivity | split; [exact E | intros u []]]].
  - intros H. destruct (IH H) as [before [v [after [-> [-> [Hv Hb]]]]]].
    exists (x :: before), v, after.
    split; [reflexivity | split; [reflexivity | split; [exact Hv |]]].
    intros u [<- | Hu]; [exact E | exact (Hb u Hu)].
Qed.

(** X17. The start-up check passes exactly when WORDPRESS_URL,
    WORDPRESS_USERNAME and WORDPRESS_PASSWORD are all set to non-empty
    strings; otherwise it throws "Missing required environment variable: "
    followed by the first of the three, in that order, that is unset or
    empty. *)
Theorem validate_env_first_missing :
  forall (env : environment),
    (validate_env env = None <->
     forall v, In v requiredEnvVars ->
               exists s, env v = Some s /\ s <> EmptyString)
    /\ (forall e, validate_env env = Some e ->
        exists before v after,
          requiredEnvVars = (before ++ v :: after)%list
          /\ e = JsError ("Missing required environment variable: " ++ v)
          /\ (env v = None \/ env v = Some EmptyString)
          /\ forall u, In u before ->
                       exists s, env u = Some s /\ s <> EmptyString).
Proof.
  intros env.
  assert (P : forall v, env_missing env v = false <->
                        exists s, env v = Some s /\ s <> EmptyString).
  { intros v. unfold env_missing. destruct (env v) as [s |].
    - destruct (String.eqb_spec s EmptyString) as [-> | Hn]; split.
      + discriminate.
      + intros [s [H Hs]]. injection H as <-. contradiction.
      + intros _. exists s. split; [reflexivity | exact Hn].
      + reflexivity.
    - split; [discriminate | intros [s [H _]]; discriminate]. }
  unfold validate_env. split.
  - rewrite check_env_none. split; intros H v Hv; apply P; exact (H v Hv).
  - intros e H. destruct (check_env_first _ _ _ H) as [before [v [after [E [-> [Hv Hb]]]]]].
    exists before, v, after. split; [exact E | split; [reflexivity | split]].
    + unfold env_missing in Hv. destruct (env v) as [s |]; [| left; reflexivity].
      right. apply String.eqb_eq in Hv. subst s. reflexivity.
    + intros u Hu. apply P. exact (Hb u Hu).
Qed.

(** ** The logger *)

(** X18. The logger writes a record exactly when the level of the record is
    at least the configured level, which is "info" when LOG_LEVEL is unset or
    empty; errors are written under every one of the four levels.  A
    LOG_LEVEL that is not one of "debug", "info", "warn", "error" (the
    comparison is exact, so "INFO" is not one) is not rejected: it silences
    every record, errors included. *)
Theorem logger_threshold :
  forall (env : environment) (level : LogLevel) (message : string)
         (metadata : value),
    let configured := logLevel_of env in
    ((env "LOG_LEVEL" = None \/ env "LOG_LEVEL" = Some EmptyString) ->
     configured = "info")
    /\ (forall c, configured = level_name c ->
          shouldLog configured level = Nat.leb (rank c) (rank level)
          /\ shouldLog configured Lerror = true)
    /\ ((forall c, configured <> level_name c) ->
          log configured level message metadata = None)
    /\ (shouldLog configured level = true ->
          exists e, log configured level message metadata = Some e
                    /\ entry_level e = level /\ entry_message e = message)
    /\ (shouldLog configured level = false ->
          log configured level message metadata = None).
Proof.
  intros env level message metadata configured.
  split; [| split; [| split; [| split]]].
  - subst configured. unfold logLevel_of. intros [-> | ->]; reflexivity.
  - intros c ->. destruct c, level; split; reflexivity.
  - intros H. unfold log, shouldLog.
    destruct (assoc configured levels) as [n |] eqn:E.
    + exfalso. unfold levels in E. cbn [assoc] in E.
      destruct (String.eqb_spec "debug" configured) as [Hd | _];
        [exact (H Ldebug (eq_sym Hd)) |].
      destruct (String.eqb_spec "info" configured) as [Hd | _];
        [exact (H Linfo (eq_sym Hd)) |].
      destruct (String.eqb_spec "warn" configured) as [Hd | _];
        [exact (H Lwarn (eq_sym Hd)) |].
      destruct (String.eqb_spec "error" configured) as [Hd | _];
        [exact (H Lerror (eq_sym Hd)) |].
      discriminate.
    + destruct (assoc (level_name level) levels); reflexivity.
  - intros H. unfold log. rewrite H. simpl. eexists.
    split; [reflexivity | split; reflexivity].
  - intros H. unfold log. rewrite H. reflexivity.
Qed.

(** ** The program run on more calls *)

Import Samples.

Lemma callTool_request_bound_witness :
  "get_posts" <> "upload_media"
  /\ exists rs,
       log_after (tool site_ok "get_posts" None) [] = rs
       /\ List.length rs <= 1.
Proof.
  assert (H : "get_posts" <> "upload_media") by discriminate.
  split; [exact H |].
  destruct (callTool_request_bound stringify numeric buffer_other site_ok
              "get_posts" None []) as [rs [E [_ L]]].
  exists rs. split; [exact E | exact (L H)].
Defined.



Lemma callTool_without_arguments_witness :
  In "get_tags" ["get_posts"; "get_categories"; "get_tags"; "list_media";
                 "get_site_info"]
  /\ tool site_ok "get_tags" None [] = tool site_ok "get_tags" (Some []) [].
Proof.
  assert (H : In "get_tags" ["get_posts"; "get_categories"; "get_tags";
                             "list_media"; "get_site_info"]) by (simpl; tauto).
  split; [exact H |].
  exact (proj1 (callTool_without_arguments stringify numeric buffer_other
                  site_ok []) "get_tags" H).
Defined.


Lemma callTool_posts_agrees_witness :
  ~ In "search_site" posts_table
  /\ callTool_posts stringify numeric site_ok "search_site"
       (Some [("search", VStr "x")]) []
     = (inr (mkEnvelope "Unknown tool: search_site" true), []).
Proof.
  assert (H : ~ In "search_site" posts_table) by (simpl; intuition discriminate).
  split; [exact H |].
  exact (proj2 (callTool_posts_agrees stringify numeric buffer_other site_ok
                  "search_site" (Some [("search", VStr "x")]) []) H).
Defined.

Lemma updatePost_payload_witness :
  In "status" post_fields
  /\ exists payload,
       log_after (updatePost site_ok (VNum 7)
                    (VObj [("id", VNum 7); ("title", VStr "Hello");
                           ("status", VStr EmptyString)])) []
       = [mkRequest POST "/posts/7" [] (JsonBody (VObj payload)) []]
       /\ field "status" payload = VUndef.
Proof.
  assert (H : In "status" post_fields) by (simpl; tauto).
  split; [exact H |].
  destruct (updatePost_payload stringify numeric buffer_other site_ok (VNum 7)
              [("id", VNum 7); ("title", VStr "Hello");
               ("status", VStr EmptyString)] [])
    as [payload [Hl [_ [_ Hf]]]].
  exists payload. split; [exact Hl | exact (Hf "status" H)].
Defined.

Lemma publishPage_result_lacks_parent_witness :
  result_of (publishPage site_ok (VNum 7)) []
  = inr (VObj [("id", VNum 7); ("title", VStr "photo");
               ("link", VStr "https://example.org/?p=7");
               ("status", VStr "draft")])
  /\ exists fields parent,
       VObj [("id", VNum 7); ("title", VStr "photo");
             ("link", VStr "https://example.org/?p=7");
             ("status", VStr "draft")] = VObj fields
       /\ result_of (updatePage site_ok (VNum 7)
                       (VObj [("status", VStr "publish")])) []
          = inr (VObj (fields ++ [("parent", parent)])).
Proof.
  split; [reflexivity |].
  destruct (proj1 (proj2 (proj2 (publishPage_result_lacks_parent site_ok
                                   (VNum 7) []))) _ eq_refl)
    as [fields [parent [E [_ Hu]]]].
  exists fields, parent. split; [exact E | exact Hu].
Defined.

Lemma pages_forward_parent_witness :
  truthy (field "title" [("title", VStr "About"); ("parent", VNum 0)]) = true
  /\ exists payload,
       log_after (createPage site_ok
                    (VObj [("title", VStr "About"); ("parent", VNum 0)])) []
       = [mkRequest POST "/pages" [] (JsonBody (VObj payload)) []]
       /\ field "parent" payload = VNum 0.
Proof.
  split; [reflexivity |].
  destruct (proj1 (pages_forward_parent numeric site_ok (VNum 7)
                     [("title", VStr "About"); ("parent", VNum 0)] []) eq_refl)
    as [payload [Hl [Hp _]]].
  exists payload. split; [exact Hl | exact Hp].
Defined.

Lemma getMedia_optional_fields_witness :
  site_ok [] (mkRequest GET ("/media/" ++ to_String (VNum 7)) [] NoBody [])
  = inr (mkResponse resource [("x-wp-total", "1"); ("x-wp-totalpages", "1")])
  /\ field "caption"
       (match resource with VObj fs => fs | _ => [] end) = VUndef
  /\ exists v,
       result_of (getMedia site_ok (VNum 7)) [] = inr v
       /\ get v "title" = inr (VStr "photo")
       /\ get v "caption" = inr VUndef.
Proof.
  split; [reflexivity |]. split; [reflexivity |].
  destruct (proj1 (getMedia_optional_fields site_ok (VNum 7) [] _ _
                     eq_refl eq_refl) _ eq_refl)
    as [v [Hv [Ht [_ [Hc _]]]]].
  exists v. split; [exact Hv |]. split; [exact Ht |].
  exact (Hc (or_introl eq_refl)).
Defined.

Lemma paged_results_metadata_witness :
  exists v r resp,
    result_of (run_list_op numeric site_ok ListPosts (VObj [("page", VNum 3)])) []
    = inr v
    /\ site_ok [] r = inr resp
    /\ get v "total" = inr (header resp "x-wp-total")
    /\ get v "currentPage" = inr (VNum 3).
Proof.
  assert (H1 : ListPosts <> ListCategories) by discriminate.
  assert (H2 : ListPosts <> ListTags) by discriminate.
  assert (H3 : ListPosts = SearchSite -> VObj [("page", VNum 3)] = VObj [("page", VNum 3)])
    by (intros _; reflexivity).
  destruct (paged_results_metadata numeric site_ok ListPosts
              (VObj [("page", VNum 3)]) [("page", VNum 3)] [] _
              H1 H2 eq_refl H3 eq_refl)
    as [r [resp [_ [Hr [Ht [_ [_ [Hc Hp]]]]]]]].
  eexists. exists r, resp. split; [reflexivity |]. split; [exact Hr |].
  split; [exact Ht |]. rewrite Hc, Hp. reflexivity.
Defined.

Lemma list_items_projected_witness :
  exists v outs,
    result_of (run_list_op numeric site_list ListMedia VUndef) [] = inr v
    /\ get v "media" = inr (VArr outs)
    /\ List.length outs = 2.
Proof.
  assert (H3 : ListMedia = SearchSite ->
               VUndef = VObj [] /\ truthy (field "search" []) = true)
    by discriminate.
  destruct (list_items_projected numeric site_list ListMedia VUndef [] []
              (or_introl eq_refl) eq_refl H3) as [r [_ [Hs _]]].
  destruct (Hs _ eq_refl) as [resp [items [outs [Hr [Hd [Hg Hl]]]]]].
  eexists. exists outs. split; [reflexivity |]. split; [exact Hg |].
  rewrite Hl.
  assert (E : VArr items = VArr [resource; resource]).
  { rewrite <- Hd. injection Hr as <-. reflexivity. }
  injection E as ->. reflexivity.
Defined.

Lemma list_operations_send_no_empty_parameter_witness :
  exists r,
    log_after (run_list_op numeric site_ok ListPosts
                 (VObj [("search", VStr EmptyString); ("status", VNull)])) []
    = [r]
    /\ forall k v, In (k, v) (rq_params r) -> k <> "parent" -> truthy v = true.
Proof.
  assert (H3 : ListPosts = SearchSite ->
               VObj [("search", VStr EmptyString); ("status", VNull)]
               = VObj [("search", VStr EmptyString); ("status", VNull)]
               /\ truthy (field "search" [("search", VStr EmptyString);
                                          ("status", VNull)]) = true)
    by discriminate.
  exact (list_operations_send_no_empty_parameter numeric site_ok ListPosts
           (VObj [("search", VStr EmptyString); ("status", VNull)])
           [("search", VStr EmptyString); ("status", VNull)] None []
           eq_refl eq_refl H3).
Defined.

Lemma delete_post_trashes_by_default_witness :
  field "force" [("id", VNum 7)] = VUndef
  /\ log_after (tool site_ok "delete_post" (Some [("id", VNum 7)])) []
     = [mkRequest DELETE "/posts/7" [("force", VBool false)] NoBody []].
Proof.
  split; [reflexivity |].
  exact (proj1 (proj2 (delete_post_trashes_by_default stringify numeric
                         buffer_other site_ok (VNum 7) VUndef
                         [("id", VNum 7)] []) eq_refl)).
Defined.

Lemma getMimeType_by_extension_witness :
  has_dot "JPG" = false
  /\ getMimeType (VStr "holiday.photo.JPG") [] = (inr (MimeType "image/jpeg"), [])
  /\ has_dot "constructor" = false
  /\ getMimeType (VStr "photo.constructor") [] = (inr ObjectConstructor, []).
Proof.
  split; [reflexivity |].
  split; [exact (proj1 (getMimeType_by_extension "holiday.photo" "JPG" []
                          eq_refl)) |].
  split; [reflexivity |].
  exact (proj1 (getMimeType_by_extension "photo" "constructor" [] eq_refl)).
Defined.

Lemma single_fetch_returns_body_witness :
  site_ok [] (mkRequest GET ("/posts/" ++ to_String (VNum 7)) [] NoBody [])
  = inr (mkResponse resource [("x-wp-total", "1"); ("x-wp-totalpages", "1")])
  /\ tool site_ok "get_post" (Some [("id", VNum 7)]) []
     = (inr (mkEnvelope (stringify resource) false),
        [mkRequest GET "/posts/7" [] NoBody []]).
Proof.
  split; [reflexivity |].
  exact (proj2 (proj2 (single_fetch_returns_body stringify numeric buffer_other
                         site_ok (VNum 7) [])) _ eq_refl).
Defined.

Lemma uploadMedia_upload_headers_witness :
  has_dot "PNG" = false
  /\ "AAAA" <> EmptyString
  /\ exists r rest,
       log_after (uploadMedia buffer_other site_ok
                    (VObj [("filename", VStr "logo.PNG"); ("data", VStr "AAAA")])) []
       = r :: rest
       /\ rq_headers r
          = [("Content-Type", "image/png");
             ("Content-Disposition",
              "attachment; filename=" ++ dquote ++ "logo.PNG" ++ dquote)].
Proof.
  assert (H : "AAAA" <> EmptyString) by discriminate.
  split; [reflexivity |]. split; [exact H |].
  destruct (uploadMedia_upload_headers buffer_other site_ok
              [("filename", VStr "logo.PNG"); ("data", VStr "AAAA")]
              "logo" "PNG" "AAAA" [] eq_refl eq_refl eq_refl H)
    as [r [rest [Hl [_ [_ [_ [Hh _]]]]]]].
  exists r, rest. split; [exact Hl | exact Hh].
Defined.

Lemma validate_env_first_missing_witness :
  validate_env env_partial
  = Some (JsError "Missing required environment variable: WORDPRESS_USERNAME")
  /\ exists before v after,
       requiredEnvVars = (before ++ v :: after)%list
       /\ JsError "Missing required environment variable: WORDPRESS_USERNAME"
          = JsError ("Missing required environment variable: " ++ v)
       /\ (env_partial v = None \/ env_partial v = Some EmptyString).
Proof.
  split; [reflexivity |].
  destruct (proj2 (validate_env_first_missing env_partial) _ eq_refl)
    as [before [v [after [E [He [Hv _]]]]]].
  exists before, v, after. split; [exact E | split; [exact He | exact Hv]].
Defined.

Lemma logger_threshold_witness :
  (forall c, logLevel_of env_loud <> level_name c)
  /\ log (logLevel_of env_loud) Lerror "Tool execution failed: get_post" (VObj [])
     = None.
Proof.
  assert (H : forall c, logLevel_of env_loud <> level_name c)
    by (intros c; destruct c; discriminate).
  split; [exact H |].
  exact (proj1 (proj2 (proj2 (logger_threshold env_loud Lerror
                                "Tool execution failed: get_post" (VObj []))))
           H).
Defined.
